(** * Scheduling dashboard (App.tsx): the appointment filter/sort effect and
      the Dashboard's request handlers.

    The development follows the source top-down:
    - [JSDate]: the ECMAScript Date operations the effect calls
      ([new Date(string)], [getDay], [getDate], [setDate], [setHours],
      relational comparison), on time values in milliseconds;
    - [JSString]: [toLowerCase] and [includes];
    - the filter callback and the sort comparator of the Dashboard effect;
    - the arrays behind the React state, held in a store, so that the
      in-place [sort] is visible;
    - [fetchAgendamentos] and [handleAgendamentoSubmit] as programs of a
      small state/exception monad that logs the calls to the outside;
    - the two controls (create form, appointment card) as event-driven
      state machines, split at the first [await] of their handlers;
    - the rest of the file: [formatData], [debounce], [AuthProvider] with
      [MainApp], [LoginScreen], the filters of the Dashboard on screen and
      [handleStatusChange]. *)

From Stdlib Require Import ZArith Lia List Sorting.Sorted Sorting.Permutation.
From Stdlib Require Import Strings.String Strings.Ascii Numbers.DecimalString.
From stdpp Require Import base option list gmap strings.

Local Open Scope string_scope.
Local Open Scope Z_scope.

(** ** ECMAScript Date: time values and calendar arithmetic (ECMA-262, 21.4.1) *)
Module JSDate.

(** A Number that holds a time value: [None] is NaN, the time value of an
    Invalid Date. *)
Definition Date : Type := option Z.

Definition msPerSecond : Z := 1000.
Definition msPerMinute : Z := 60000.
Definition msPerHour : Z := 3600000.
Definition msPerDay : Z := 86400000.

Definition Day (t : Z) : Z := t / msPerDay.
Definition TimeWithinDay (t : Z) : Z := t mod msPerDay.

Definition DayFromYear (y : Z) : Z :=
  365 * (y - 1970) + (y - 1969) / 4 - (y - 1901) / 100 + (y - 1601) / 400.

Definition DaysInYear (y : Z) : Z :=
  if negb (y mod 4 =? 0) then 365
  else if negb (y mod 100 =? 0) then 366
  else if negb (y mod 400 =? 0) then 365
  else 366.

(** The largest [y] with [DayFromYear y <= Day t]: a first guess from the mean
    length of a Gregorian year, moved by one year where it is off. *)
Definition YearFromDay (d : Z) : Z :=
  let y := 1970 + (400 * d) / 146097 in
  if d <? DayFromYear y then y - 1
  else if DayFromYear (y + 1) <=? d then y + 1
  else y.

Definition YearFromTime (t : Z) : Z := YearFromDay (Day t).

Definition InLeapYear (t : Z) : Z :=
  if DaysInYear (YearFromTime t) =? 366 then 1 else 0.

Definition DayWithinYear (t : Z) : Z := Day t - DayFromYear (YearFromTime t).

(** Day number, within its year, of the first day of month [m] (0 = January). *)
Definition monthStart (m leap : Z) : Z :=
  if m <=? 0 then 0
  else if m =? 1 then 31
  else if m =? 2 then 59 + leap
  else if m =? 3 then 90 + leap
  else if m =? 4 then 120 + leap
  else if m =? 5 then 151 + leap
  else if m =? 6 then 181 + leap
  else if m =? 7 then 212 + leap
  else if m =? 8 then 243 + leap
  else if m =? 9 then 273 + leap
  else if m =? 10 then 304 + leap
  else 334 + leap.

Definition MonthFromTime (t : Z) : Z :=
  let d := DayWithinYear t in
  let leap := InLeapYear t in
  if d <? 31 then 0
  else if d <? 59 + leap then 1
  else if d <? 90 + leap then 2
  else if d <? 120 + leap then 3
  else if d <? 151 + leap then 4
  else if d <? 181 + leap then 5
  else if d <? 212 + leap then 6
  else if d <? 243 + leap then 7
  else if d <? 273 + leap then 8
  else if d <? 304 + leap then 9
  else if d <? 334 + leap then 10
  else 11.

Definition DateFromTime (t : Z) : Z :=
  DayWithinYear t - monthStart (MonthFromTime t) (InLeapYear t) + 1.

(** 0 = Sunday; 1 January 1970 (day 0) was a Thursday. *)
Definition WeekDay (t : Z) : Z := (Day t + 4) mod 7.

Definition MakeTime (hour min sec ms : Z) : Z :=
  hour * msPerHour + min * msPerMinute + sec * msPerSecond + ms.

(** The day number of the first of month [mn] of year [ym], plus [date - 1]. *)
Definition MakeDay (year month date : Z) : Z :=
  let ym := year + month / 12 in
  let mn := month mod 12 in
  DayFromYear ym + monthStart mn (if DaysInYear ym =? 366 then 1 else 0)
  + date - 1.

Definition MakeDate (day time : Z) : Z := day * msPerDay + time.

Definition maxTime : Z := 8640000000000000.

Definition TimeClip (t : Z) : Date :=
  if Z.abs t >? maxTime then None else Some t.

(** The host's time zone, taken as one fixed offset [tza] from UTC, in
    milliseconds (no daylight-saving transitions). *)
Definition LocalTime (tza t : Z) : Z := t + tza.
Definition UTC (tza t : Z) : Z := t - tza.

(** *** Methods of Date.prototype *)

Definition getTime (d : Date) : option Z := d.

Definition getDay (tza : Z) (d : Date) : option Z :=
  t ← d; Some (WeekDay (LocalTime tza t)).

Definition getDate (tza : Z) (d : Date) : option Z :=
  t ← d; Some (DateFromTime (LocalTime tza t)).

Definition setDate (tza : Z) (dt : option Z) (d : Date) : Date :=
  t ← d;
  dt ← dt;
  let t := LocalTime tza t in
  let newDate :=
    MakeDate (MakeDay (YearFromTime t) (MonthFromTime t) dt) (TimeWithinDay t) in
  TimeClip (UTC tza newDate).

Definition setHours (tza : Z) (hour min sec ms : Z) (d : Date) : Date :=
  t ← d;
  let t := LocalTime tza t in
  let date := MakeDate (Day t) (MakeTime hour min sec ms) in
  TimeClip (UTC tza date).

(** [a - b] on Numbers: NaN as soon as one side is NaN. *)
Definition num_sub (a b : option Z) : option Z :=
  x ← a; y ← b; Some (x - y).

(** [a === b], [a >= b] and [a <= b] on Numbers: false as soon as one side is
    NaN. *)
Definition num_eq (a b : option Z) : bool :=
  match a, b with Some x, Some y => x =? y | _, _ => false end.
Definition num_ge (a b : option Z) : bool :=
  match a, b with Some x, Some y => y <=? x | _, _ => false end.
Definition num_le (a b : option Z) : bool :=
  match a, b with Some x, Some y => x <=? y | _, _ => false end.

(** *** The Date Time String Format (21.4.1.32)

    [YYYY-MM-DDTHH:mm], then optionally [:ss], [.sss] and a zone ([Z] or
    [+HH:mm], [-HH:mm]); without a zone the fields are local time.  It is
    the part of [Date.parse] that the standard fixes; what a host does with
    any other string is its own business, so the effect below takes the
    parser of its host as a parameter and [parseISO] is one such parser,
    which reads every other string as NaN. *)

Definition digit (c : ascii) : option Z :=
  let n := Z.of_N (N_of_ascii c) in
  if (48 <=? n) && (n <=? 57) then Some (n - 48) else None.

Fixpoint digits (n : nat) (acc : Z) (s : string) : option (Z * string) :=
  match n with
  | O => Some (acc, s)
  | S n' =>
      match s with
      | String c s' => d ← digit c; digits n' (10 * acc + d) s'
      | EmptyString => None
      end
  end.

Definition expect (c : ascii) (s : string) : option string :=
  match s with
  | String c' s' => if Ascii.eqb c c' then Some s' else None
  | EmptyString => None
  end.

Definition starts (c : ascii) (s : string) : bool :=
  match s with
  | String c' _ => Ascii.eqb c c'
  | EmptyString => false
  end.

(** A zone suffix, as the offset from UTC in milliseconds; [None] inside
    [Some] is the absent suffix. *)
Definition zone (s : string) : option (option Z) :=
  match s with
  | EmptyString => Some None
  | String "Z" EmptyString => Some (Some 0)
  | String sign r =>
      sgn ← (if Ascii.eqb sign "+" then Some 1
              else if Ascii.eqb sign "-" then Some (-1) else None);
      '(h, r) ← digits 2 0 r;
      r ← expect ":" r;
      '(m, r) ← digits 2 0 r;
      if (h <=? 23) && (m <=? 59) && (r =? "")%string
      then Some (Some (sgn * (h * msPerHour + m * msPerMinute)))
      else None
  end.

Definition parseISO (tza : Z) (s : string) : Date :=
  '(y, r) ← digits 4 0 s;
  r ← expect "-" r;
  '(mo, r) ← digits 2 0 r;
  r ← expect "-" r;
  '(d, r) ← digits 2 0 r;
  r ← expect "T" r;
  '(h, r) ← digits 2 0 r;
  r ← expect ":" r;
  '(mi, r) ← digits 2 0 r;
  '(sec, r) ← (if starts ":" r then r ← expect ":" r; digits 2 0 r
               else Some (0, r));
  '(ms, r) ← (if starts "." r then r ← expect "." r; digits 3 0 r
              else Some (0, r));
  z ← zone r;
  if (1 <=? mo) && (mo <=? 12) && (1 <=? d) && (d <=? 31)
     && (h <=? 24) && (mi <=? 59) && (sec <=? 59)
     && ((h <? 24) || ((mi =? 0) && (sec =? 0) && (ms =? 0)))
  then
    let tv := MakeDate (MakeDay y (mo - 1) d) (MakeTime h mi sec ms) in
    TimeClip (match z with Some off => tv - off | None => UTC tza tv end)
  else None.

End JSDate.

(** ** ECMAScript String: [toLowerCase] and [includes]

    A string is its sequence of code units; the model covers the code units
    U+0000..U+00FF, one [ascii] each. *)
Module JSString.

(** Lower-casing of one code unit: A-Z, and in Latin-1 the letters
    U+00C0..U+00DE without the multiplication sign U+00D7. *)
Definition lowerUnit (c : ascii) : ascii :=
  let n := N_of_ascii c in
  if ((65 <=? n) && (n <=? 90))%N
     || ((192 <=? n) && (n <=? 222) && negb (n =? 215))%N
  then ascii_of_N (n + 32) else c.

Fixpoint toLowerCase (s : string) : string :=
  match s with
  | EmptyString => EmptyString
  | String c s' => String (lowerUnit c) (toLowerCase s')
  end.

(** [hay.includes(needle)]: [needle] occurs in [hay] at some position. *)
Fixpoint includes (hay needle : string) : bool :=
  String.prefix needle hay
  || match hay with
     | EmptyString => false
     | String _ hay' => includes hay' needle
     end.

(** ToBoolean of a string: only the empty string is falsy. *)
Definition truthy (s : string) : bool := negb (s =? "")%string.

End JSString.

(** ** ECMAScript Array: [filter] and [sort] on the elements of an array *)
Module JSArray.
Section Elements.
Context {A : Type}.

(** SortCompare (23.1.3.30.2): the comparator's Number, with NaN read as +0. *)
Definition SortCompare (comparefn : A → A → option Z) (x y : A) : Z :=
  default 0 (comparefn x y).

(** [sort] is stable, and for a consistent comparator that alone fixes the
    result ([sort_canonical] below); the model sorts by insertion from the
    right, each element going in front of the first one it does not come
    after.  On a comparator that is not consistent the standard leaves the
    order to the host. *)
Fixpoint insert (comparefn : A → A → option Z) (x : A) (l : list A) : list A :=
  match l with
  | [] => [x]
  | y :: l' =>
      if SortCompare comparefn x y <=? 0 then x :: y :: l'
      else y :: insert comparefn x l'
  end.

Fixpoint sort (comparefn : A → A → option Z) (l : list A) : list A :=
  match l with
  | [] => []
  | x :: l' => insert comparefn x (sort comparefn l')
  end.

(** [filter] keeps, in order, the elements whose callback result is truthy. *)
Definition filter (callback : A → bool) (l : list A) : list A :=
  List.filter callback l.

End Elements.
End JSArray.

Import JSDate JSString.

(** ** The data model *)

(** Modelled from the spec: the [Agendamento] interface of [./types], which is
    not among the sources.  [data] and [horario] are the strings the effect
    splices into a date-time string; [email] is optional; [status] is one of
    [pendente], [confirmado], [cancelado], compared as a string with the
    status filter. *)
Record Agendamento : Type := mkAgendamento {
  id : Z;
  nome : string;
  email : option string;
  telefone : string;
  data : string;
  horario : string;
  status : string
}.

(** ** The Dashboard effect that filters and sorts (App.tsx, lines 333-363) *)
Section FilterSort.

(** The host: its time zone and its [new Date(string)]. *)
Variable tza : Z.
Variable Date_parse : string → Date.

(** [new Date(`${a.data}T${a.horario}`)] *)
Definition dataAgendamento (a : Agendamento) : Date :=
  Date_parse (data a ++ "T" ++ horario a)%string.

Definition matchesSearch (lowercasedFilter : string) (a : Agendamento) : bool :=
  includes (toLowerCase (nome a)) lowercasedFilter
  || match email a with
     | Some e => truthy e && includes (toLowerCase e) lowercasedFilter
     | None => false
     end.

Definition matchesStatus (statusFilter : string) (a : Agendamento) : bool :=
  negb (truthy statusFilter) || (status a =? statusFilter)%string.

(** [now] is the reading of the clock behind every [new Date()] of one pass of
    the effect; the pass is synchronous and is taken at one instant. *)
Definition matchesDate (now : Z) (diaSelecionado : Z) (a : Agendamento) : bool :=
  let hoje := setHours tza 0 0 0 0 (Some now) in
  if (0 <=? diaSelecionado) && (diaSelecionado <=? 6) then
    num_eq (getDay tza (dataAgendamento a)) (Some diaSelecionado)
    && num_ge (dataAgendamento a) hoje
  else
    let hojeFim := setHours tza 23 59 59 999 (Some now) in
    if diaSelecionado =? -1 then
      let umaSemanaAtras := Some now in
      let umaSemanaAtras :=
        setDate tza (num_sub (getDate tza umaSemanaAtras) (Some 7)) umaSemanaAtras in
      let umaSemanaAtras := setHours tza 0 0 0 0 umaSemanaAtras in
      num_ge (dataAgendamento a) umaSemanaAtras
      && num_le (dataAgendamento a) hojeFim
    else false.

(** The callback of [agendamentos.filter]. *)
Definition filterCallback (now : Z) (searchInput statusFilter : string)
    (diaSelecionado : Z) (a : Agendamento) : bool :=
  let lowercasedFilter := toLowerCase searchInput in
  matchesSearch lowercasedFilter a
  && matchesStatus statusFilter a
  && matchesDate now diaSelecionado a.

(** The comparator of [.sort]: the difference of the two time values.  [sort]
    reads its sign only, and the difference of two time values in double
    precision has the sign of their exact difference. *)
Definition comparefn (a b : Agendamento) : option Z :=
  num_sub (getTime (dataAgendamento a)) (getTime (dataAgendamento b)).

(** [agendamentos.filter(...).sort(...)], on the elements. *)
Definition filtered (now : Z) (searchInput statusFilter : string)
    (diaSelecionado : Z) (agendamentos : list Agendamento) : list Agendamento :=
  JSArray.sort comparefn
    (JSArray.filter (filterCallback now searchInput statusFilter diaSelecionado)
       agendamentos).

End FilterSort.

(** *** The words of the specification

    The instants and relations that the statements below name, written from
    the specification's words and compared with what the effect computes. *)

(** 00:00:00.000 of the host's calendar day of [t], as a time value. *)
Definition startOfDay (tza t : Z) : Z := UTC tza (Day (LocalTime tza t) * msPerDay).

(** 23:59:59.999 of that day. *)
Definition endOfDay (tza t : Z) : Z := startOfDay tza t + msPerDay - 1.

(** 00:00:00.000 seven days before that day. *)
Definition weekBefore (tza t : Z) : Z := startOfDay tza t - 7 * msPerDay.

(** The time values a Date can hold: 100,000,000 days either side of the epoch. *)
Definition representable (t : Z) : Prop := Z.abs t <= maxTime.

(** [s] occurs in [field], letter case apart. *)
Definition containsIgnoringCase (s field : string) : Prop :=
  ∃ pre suf, toLowerCase field = (pre ++ toLowerCase s ++ suf)%string.

(** [a] is not after [b], both with a composed date-time that is an instant. *)
Definition notAfter (Date_parse : string → Date) (a b : Agendamento) : Prop :=
  ∃ x y, dataAgendamento Date_parse a = Some x
         ∧ dataAgendamento Date_parse b = Some y ∧ x <= y.

(** The composed date-time of [a] is the instant [t]. *)
Definition atInstant (Date_parse : string → Date) (t : Z) (a : Agendamento) : bool :=
  num_eq (dataAgendamento Date_parse a) (Some t).

(** ** The world of the Dashboard

    Arrays are objects: the React state holds references into a store, and
    [filter] allocates where [sort] writes in place. *)

Inductive ToastType : Type := success | error | info | warning.

(** The entries of the create form, as [Object.fromEntries] returns them. *)
Module Form.
Record entries : Type := mkEntries {
  nome : string;
  email : string;
  telefone : string;
  data : string;
  horario : string
}.
End Form.

(** What leaves the component: requests, sign-outs, toasts, console lines and
    the reset of the form. *)
Inductive Call : Type :=
  | CFetch (method url bearer : string) (body : option Form.entries)
  | CSignOut
  | CToast (message : string) (type : ToastType)
  | CConsoleError (message : string)
  | CFormReset.

(** The state of the Dashboard component (the [useState] cells). *)
Record Dashboard : Type := mkDashboard {
  agendamentos : nat;
  filteredAgendamentos : nat;
  loadingAgendamentos : bool;
  diaSelecionado : Z;
  searchInput : string;
  statusFilter : string
}.

Record World : Type := mkWorld {
  store : gmap nat (list Agendamento);
  dashboard : Dashboard;
  calls : list Call
}.

(** A decoded response body: the list endpoint answers with [agendamentos],
    a failing endpoint with [msg]. *)
Record Body : Type := mkBody {
  body_agendamentos : option (list Agendamento);
  body_msg : option string
}.

(** A settled [fetch]: the status line, and the body where [json()] resolves
    ([None] where it rejects). *)
Record Response : Type := mkResponse {
  res_status : Z;
  res_json : option Body
}.

(** The collaborators: the API ([None] is a [fetch] that rejects, the network
    failure) and the identity provider (does [signOut()] resolve); and whether
    the form is still reachable from the event after the [await]. *)
Record Remote : Type := mkRemote {
  respond : string → string → option Response;
  signOutResolves : bool;
  currentTargetAlive : bool
}.

(** *** A state monad with exceptions *)

Inductive Completion (A : Type) : Type :=
  | Normal (a : A)
  | Throw.
Arguments Normal {A} a.
Arguments Throw {A}.

Definition M (A : Type) : Type := World → Completion A * World.

#[global] Instance M_ret : MRet M := λ A a w, (Normal a, w).
#[global] Instance M_bind : MBind M := λ A B f m w,
  match m w with
  | (Normal a, w') => f a w'
  | (Throw, w') => (Throw, w')
  end.

Definition throw {A : Type} : M A := λ w, (Throw, w).

(** [try { body } catch { handler }] *)
Definition tryCatch {A : Type} (body handler : M A) : M A := λ w,
  match body w with
  | (Normal a, w') => (Normal a, w')
  | (Throw, w') => handler w'
  end.

(** [try { body } finally { final }] *)
Definition tryFinally {A : Type} (body : M A) (final : M unit) : M A := λ w,
  match body w with
  | (c, w') =>
      match final w' with
      | (Normal _, w'') => (c, w'')
      | (Throw, w'') => (Throw, w'')
      end
  end.

(** A call to an async function that is not awaited: it runs, and nothing
    it throws reaches the caller. *)
Definition detached (m : M unit) : M unit := λ w,
  match m w with (_, w') => (Normal (), w') end.

Definition emit (c : Call) : M unit := λ w,
  (Normal (), mkWorld (store w) (dashboard w) (calls w ++ [c])).

Definition getDashboard : M Dashboard := λ w, (Normal (dashboard w), w).

Definition setDashboard (d : Dashboard) : M unit := λ w,
  (Normal (), mkWorld (store w) d (calls w)).

(** *** Arrays in the store *)

Definition readArray (l : nat) : M (list Agendamento) := λ w,
  match store w !! l with
  | Some xs => (Normal xs, w)
  | None => (Throw, w)
  end.

Definition newArray (xs : list Agendamento) : M nat := λ w,
  let l := fresh (dom (store w)) in
  (Normal l, mkWorld (<[l := xs]> (store w)) (dashboard w) (calls w)).

Definition writeArray (l : nat) (xs : list Agendamento) : M unit := λ w,
  (Normal (), mkWorld (<[l := xs]> (store w)) (dashboard w) (calls w)).

(** [arr.filter(callback)]: a new array. *)
Definition Array_filter (arr : nat) (callback : Agendamento → bool) : M nat :=
  xs ← readArray arr; newArray (JSArray.filter callback xs).

(** [arr.sort(comparefn)]: sorts [arr] itself and returns it. *)
Definition Array_sort (arr : nat) (comparefn : Agendamento → Agendamento → option Z)
    : M nat :=
  xs ← readArray arr; writeArray arr (JSArray.sort comparefn xs);; mret arr.

(** *** The state setters *)

Definition setAgendamentos (xs : list Agendamento) : M unit :=
  l ← newArray xs;
  d ← getDashboard;
  setDashboard (mkDashboard l (filteredAgendamentos d) (loadingAgendamentos d)
                  (diaSelecionado d) (searchInput d) (statusFilter d)).

Definition setFilteredAgendamentos (l : nat) : M unit :=
  d ← getDashboard;
  setDashboard (mkDashboard (agendamentos d) l (loadingAgendamentos d)
                  (diaSelecionado d) (searchInput d) (statusFilter d)).

Definition setLoadingAgendamentos (b : bool) : M unit :=
  d ← getDashboard;
  setDashboard (mkDashboard (agendamentos d) (filteredAgendamentos d) b
                  (diaSelecionado d) (searchInput d) (statusFilter d)).

(** *** The outside *)

Definition API_BASE_URL : string := "https://agendamento-ynxr.onrender.com".

(** [showToast]: App mounts the toast container next to the Dashboard, so the
    lookup of the container succeeds and the toast is appended.  Messages are
    labels, kept byte for byte as the source file has them. *)
Definition showToast (message : string) (type : ToastType) : M unit :=
  emit (CToast message type).

Definition console_error (message : string) : M unit :=
  emit (CConsoleError message).

(** ToBoolean of [string | null]. *)
Definition truthyToken (token : option string) : bool :=
  match token with Some t => truthy t | None => false end.

Definition res_ok (res : Response) : bool :=
  (200 <=? res_status res) && (res_status res <=? 299).

Section Handlers.

Variable tza : Z.
Variable Date_parse : string → Date.
Variable remote : Remote.

Definition fetch (method url : string) (token : option string)
    (body : option Form.entries) : M Response :=
  emit (CFetch method url (default "" token) body);;
  match respond remote method url with
  | Some res => mret res
  | None => throw
  end.

Definition json (res : Response) : M Body :=
  match res_json res with
  | Some b => mret b
  | None => throw
  end.

Definition signOut : M unit :=
  emit CSignOut;;
  if signOutResolves remote then mret () else throw.

(** [e.currentTarget.reset()] after the [await]. *)
Definition currentTarget_reset : M unit :=
  if currentTargetAlive remote then emit CFormReset else throw.

(** App.tsx, lines 307-327. *)
Definition fetchAgendamentos (token : option string) : M unit :=
  if negb (truthyToken token) then mret ()
  else
    setLoadingAgendamentos true;;
    tryFinally
      (tryCatch
         (res ← fetch "GET" (API_BASE_URL ++ "/agendamentos")%string token None;
          if res_ok res then
            data ← json res;
            setAgendamentos (default [] (body_agendamentos data))
          else if res_status res =? 401 then
            signOut;;
            showToast "Sessão expirada. Faça login novamente." error
          else mret ())
         (console_error "Failed to fetch agendamentos";;
          showToast "Erro ao carregar agendamentos." error))
      (setLoadingAgendamentos false).

(** The effect of lines 333-363, run at clock reading [now]. *)
Definition filterEffect (now : Z) : M unit :=
  d ← getDashboard;
  arr ← Array_filter (agendamentos d)
          (filterCallback tza Date_parse now (searchInput d) (statusFilter d)
             (diaSelecionado d));
  filtered ← Array_sort arr (comparefn Date_parse);
  setFilteredAgendamentos filtered.

(** A required entry that is missing or empty. *)
Definition missingField (dataToSend : Form.entries) : bool :=
  negb (truthy (Form.nome dataToSend))
  || negb (truthy (Form.telefone dataToSend))
  || negb (truthy (Form.data dataToSend))
  || negb (truthy (Form.horario dataToSend)).

(** App.tsx, lines 366-395. *)
Definition handleAgendamentoSubmit (token : option string)
    (dataToSend : Form.entries) : M unit :=
  if negb (truthyToken token) then mret ()
  else if missingField dataToSend then
    showToast "Preencha todos os campos obrigatórios" warning
  else
    tryCatch
      (response ← fetch "POST" (API_BASE_URL ++ "/agendar")%string token
                    (Some dataToSend);
       result ← json response;
       if res_ok response then
         showToast "Agendado com sucesso!" success;;
         currentTarget_reset;;
         detached (fetchAgendamentos token)
       else
         showToast (match body_msg result with
                    | Some m => if truthy m then m else "Erro ao agendar"
                    | None => "Erro ao agendar"
                    end) error)
      (showToast "Erro de conexão ao agendar" error).

End Handlers.

(** *** Reading the log *)

Definition isFetch (c : Call) : bool :=
  match c with CFetch _ _ _ _ => true | _ => false end.
Definition isSignOut (c : Call) : bool :=
  match c with CSignOut => true | _ => false end.
Definition isErrorToast (c : Call) : bool :=
  match c with CToast _ error => true | _ => false end.

Definition count (p : Call → bool) (cs : list Call) : nat :=
  length (List.filter p cs).

(** The calls made between the world [w] and the later world [w']. *)
Definition newCalls (w w' : World) : list Call :=
  drop (length (calls w)) (calls w').

(** ** The controls, as event-driven machines

    A handler runs up to its first [await] when the event is dispatched and
    resumes when the awaited promise settles; no other event is handled in
    between two such steps.  A disabled button dispatches nothing. *)

(** [Button] (lines 87-115): [disabled={isLoading} {...props}], so that a
    [disabled] among the props wins, and [isLoading] decides otherwise. *)
Definition Button_disabled (isLoading : bool) (props_disabled : option bool) : bool :=
  default isLoading props_disabled.

(** The create form (lines 425-436) with [handleAgendamentoSubmit]. *)
Module CreateForm.

(** [<Button type="submit" variant="primary" ...>]: no [isLoading], no
    [disabled]; the parameter [isLoading] takes its default. *)
Definition submit_disabled : bool := Button_disabled false None.

Inductive Event : Type :=
  | Submit (dataToSend : Form.entries)
  | Settle.

(** The state is the create requests in flight, oldest first: the component
    keeps no flag of its own for them. *)
Definition step (token : option string) (inFlight : list Form.entries)
    (ev : Event) : list Form.entries :=
  match ev with
  | Submit dataToSend =>
      if submit_disabled then inFlight
      else if negb (truthyToken token) then inFlight
      else if missingField dataToSend then inFlight
      else inFlight ++ [dataToSend]
  | Settle => tail inFlight
  end.

Definition run (token : option string) (evs : list Event) : list Form.entries :=
  fold_left (step token) evs [].

End CreateForm.

(** [AgendamentoCard] (lines 528-592) with [handleStatusChange]. *)
Module AgendamentoCard.

Inductive NewStatus : Type := confirmado | cancelado.

Record State : Type := mkState {
  isSubmitting : bool;
  inFlight : list NewStatus
}.

(** Both buttons: [isLoading={isSubmitting}], no [disabled]. *)
Definition button_disabled (st : State) : bool :=
  Button_disabled (isSubmitting st) None.

Inductive Event : Type :=
  | Click (newStatus : NewStatus)
  | Settle.

(** [Click]: the guard on the token, then [setIsSubmitting(true)] and the first
    [await].  [Settle]: the rest of the handler, through its [finally]. *)
Definition step (token : option string) (st : State) (ev : Event) : State :=
  match ev with
  | Click newStatus =>
      if button_disabled st then st
      else if negb (truthyToken token) then st
      else mkState true (inFlight st ++ [newStatus])
  | Settle =>
      match inFlight st with
      | [] => st
      | _ :: rest => mkState false rest
      end
  end.

Definition init : State := mkState false [].

Definition run (token : option string) (evs : list Event) : State :=
  fold_left (step token) evs init.

End AgendamentoCard.

(** *** Sample hosts and records *)

(** A host at UTC-03:00 whose [Date.parse] is [parseISO]. *)
Definition brasilia : Z := -10800000.

(** Wednesday 15 January 2025, 12:00 in that zone. *)
Definition quartaMeioDia : Z := 1736953200000.

Definition ana : Agendamento :=
  mkAgendamento 1 "Ana" (Some "ana@example.com") "(11) 90000-0001"
    "2025-01-10" "09:00" "pendente".
Definition bea : Agendamento :=
  mkAgendamento 2 "Bea" None "(11) 90000-0002"
    "2025-01-10" "08:00" "confirmado".
(** Same instant as [ana], later in the list. *)
Definition caio : Agendamento :=
  mkAgendamento 3 "Caio" (Some "CAIO@EXAMPLE.COM") "(11) 90000-0003"
    "2025-01-10" "09:00" "pendente".
(** Sunday 12 January 2025 and Sunday 19 January 2025. *)
Definition domingoPassado : Agendamento :=
  mkAgendamento 4 "Davi" None "(11) 90000-0004"
    "2025-01-12" "10:00" "pendente".
Definition domingoFuturo : Agendamento :=
  mkAgendamento 5 "Eva" None "(11) 90000-0005"
    "2025-01-19" "10:00" "pendente".
(** A date the server did not send in the year-month-day form. *)
Definition semData : Agendamento :=
  mkAgendamento 6 "Fabio" None "(11) 90000-0006"
    "10/01/2025" "09:00" "pendente".

(** The Dashboard after its first fetch: the two arrays of the initial
    [useState([])] cells, and the fetched array [lista] that [agendamentos]
    now names; no search string, no status filter, day selector [dia]. *)
Definition mundo (lista : list Agendamento) (dia : Z) : World :=
  mkWorld (<[2%nat := lista]> (<[1%nat := []]> (<[0%nat := []]> ∅)))
    (mkDashboard 2 1 false dia "" "")
    [].

(** An API that answers every request with 401 and no body, next to an
    identity provider whose [signOut()] resolves, or rejects. *)
Definition api401 (signOutResolves : bool) : Remote :=
  mkRemote (λ _ _, Some (mkResponse 401 None)) signOutResolves true.

Definition formCompleto : Form.entries :=
  Form.mkEntries "Gil" "" "(11) 90000-0007" "2025-01-20" "14:00".
Definition formSemNome : Form.entries :=
  Form.mkEntries "" "" "(11) 90000-0007" "2025-01-20" "14:00".

(** ** Further samples *)

(** An API that gives every request the same outcome; [signOut()] resolves and
    the form stays reachable. *)
Definition apiAnswering (outcome : option Response) : Remote :=
  mkRemote (λ _ _, outcome) true true.

(** The same API when the event no longer reaches the form after the await. *)
Definition apiFormGone (outcome : option Response) : Remote :=
  mkRemote (λ _ _, outcome) true false.

Definition isPost (c : Call) : bool :=
  match c with CFetch method _ _ _ => (method =? "POST")%string | _ => false end.

(** ** [formatData] (lines 58-62) *)

(** [s.split(sep)] for a separator of one code unit: the pieces between the
    separators, empty ones included; never the empty array. *)
Fixpoint String_split (sep : ascii) (s : string) : list string :=
  match s with
  | EmptyString => [EmptyString]
  | String c s' =>
      if Ascii.eqb c sep then EmptyString :: String_split sep s'
      else match String_split sep s' with
           | piece :: pieces => String c piece :: pieces
           | [] => [String c EmptyString]
           end
  end.

(** A value spliced into a template literal; a pattern variable that the
    array does not reach is [undefined]. *)
Definition spliced (v : option string) : string := default "undefined" v.

Definition formatData (data : string) : string :=
  if negb (truthy data) then ""
  else
    let parts := String_split "-" data in
    let y := parts !! 0%nat in
    let m := parts !! 1%nat in
    let d := parts !! 2%nat in
    (spliced d ++ "/" ++ spliced m ++ "/" ++ spliced y)%string.

(** No code unit of [s] is [sep]. *)
Fixpoint without (sep : ascii) (s : string) : bool :=
  match s with
  | EmptyString => true
  | String c s' => negb (Ascii.eqb c sep) && without sep s'
  end.

(** ** [AuthProvider] (lines 27-54) and [MainApp] (lines 177-194) *)

(** The two fields of the identity provider's session that the code reads,
    and the one field of its user. *)
Module Supabase.
Record User : Type := mkUser { email : option string }.
Record Session : Type := mkSession { user : User; access_token : string }.
End Supabase.

Module Auth.

Record AuthContextType : Type := mkAuthContext {
  session : option Supabase.Session;
  user : option Supabase.User;
  loading : bool;
  token : option string
}.

(** The four [useState] cells at mount. *)
Definition initial : AuthContextType := mkAuthContext None None true None.

Definition setSession (v : option Supabase.Session) (st : AuthContextType) :=
  mkAuthContext v (user st) (loading st) (token st).
Definition setUser (v : option Supabase.User) (st : AuthContextType) :=
  mkAuthContext (session st) v (loading st) (token st).
Definition setToken (v : option string) (st : AuthContextType) :=
  mkAuthContext (session st) (user st) (loading st) v.
Definition setLoading (v : bool) (st : AuthContextType) :=
  mkAuthContext (session st) (user st) v (token st).

(** [setAuthData]: the four setters, in the order of the source; the
    component renders again once they are all applied. *)
Definition setAuthData (s : option Supabase.Session) (st : AuthContextType)
    : AuthContextType :=
  let st := setSession s st in
  let st := setUser (Supabase.user <$> s) st in
  let st := setToken (Supabase.access_token <$> s) st in
  setLoading false st.

(** The provider after the sessions delivered to it, oldest first, by
    [getSession()] and by the subscription to the changes of the auth state. *)
Definition provider (delivered : list (option Supabase.Session)) : AuthContextType :=
  fold_left (λ st s, setAuthData s st) delivered initial.

End Auth.

Inductive Screen : Type := Carregando | DashboardScreen | LoginScreenScreen.

Definition MainApp (ctx : Auth.AuthContextType) : Screen :=
  if Auth.loading ctx then Carregando
  else if Auth.session ctx is Some _ then DashboardScreen
  else LoginScreenScreen.

Definition sessaoDaAna : Supabase.Session :=
  Supabase.mkSession (Supabase.mkUser (Some "ana@example.com")) "jwt".

(** ** [LoginScreen] (lines 197-292) *)
Module LoginScreen.

Inductive Call : Type :=
  | CSignInWithGoogle
  | CToast (message : string) (type : ToastType)
  | CConsoleError.

(** The three [useState] cells, the browser's local storage, the calls made,
    and the sign-ins awaited and not yet settled. *)
Record World : Type := mkWorld {
  isLoading : bool;
  termsAccepted : bool;
  isTermsModalOpen : bool;
  localStorage : gmap string string;
  calls : list Call;
  inFlight : nat
}.

(** [localStorage.getItem('termsAccepted') === 'true'] *)
Definition storedAccepted (storage : gmap string string) : bool :=
  match storage !! "termsAccepted" with
  | Some v => (v =? "true")%string
  | None => false
  end.

Definition mount (storage : gmap string string) : World :=
  mkWorld false (storedAccepted storage) false storage [] 0.

Definition showToast (message : string) (type : ToastType) (w : World) : World :=
  mkWorld (isLoading w) (termsAccepted w) (isTermsModalOpen w) (localStorage w)
    (calls w ++ [CToast message type]) (inFlight w).
Definition setIsLoading (v : bool) (w : World) : World :=
  mkWorld v (termsAccepted w) (isTermsModalOpen w) (localStorage w) (calls w)
    (inFlight w).
Definition setTermsAccepted (v : bool) (w : World) : World :=
  mkWorld (isLoading w) v (isTermsModalOpen w) (localStorage w) (calls w)
    (inFlight w).
Definition setIsTermsModalOpen (v : bool) (w : World) : World :=
  mkWorld (isLoading w) (termsAccepted w) v (localStorage w) (calls w) (inFlight w).
Definition setItem (k v : string) (w : World) : World :=
  mkWorld (isLoading w) (termsAccepted w) (isTermsModalOpen w)
    (<[k := v]> (localStorage w)) (calls w) (inFlight w).
Definition removeItem (k : string) (w : World) : World :=
  mkWorld (isLoading w) (termsAccepted w) (isTermsModalOpen w)
    (delete k (localStorage w)) (calls w) (inFlight w).

(** [handleLogin], up to its [await]: the sign-in is sent and awaited. *)
Definition handleLogin (w : World) : World :=
  if negb (termsAccepted w) then
    showToast "Você precisa aceitar os Termos de Uso." warning w
  else
    let w := setIsLoading true w in
    mkWorld (isLoading w) (termsAccepted w) (isTermsModalOpen w) (localStorage w)
      (calls w ++ [CSignInWithGoogle]) (S (inFlight w)).

(** [handleLogin], from its [await] on: nothing more when the sign-in
    resolved, the [catch] block when it rejected. *)
Definition handleLogin_settled (resolved : bool) (w : World) : World :=
  let w := mkWorld (isLoading w) (termsAccepted w) (isTermsModalOpen w)
             (localStorage w) (calls w) (pred (inFlight w)) in
  if resolved then w
  else
    let w := showToast "Ocorreu um erro ao tentar fazer login." error w in
    let w := mkWorld (isLoading w) (termsAccepted w) (isTermsModalOpen w)
               (localStorage w) (calls w ++ [CConsoleError]) (inFlight w) in
    setIsLoading false w.

Definition handleAcceptTerms (w : World) : World :=
  let w := setItem "termsAccepted" "true" w in
  let w := setTermsAccepted true w in
  let w := setIsTermsModalOpen false w in
  showToast "Termos aceitos com sucesso!" success w.

(** The [onChange] of the checkbox. *)
Definition onChange (checked : bool) (w : World) : World :=
  if checked then setIsTermsModalOpen true w
  else removeItem "termsAccepted" (setTermsAccepted false w).

(** What the user and the identity provider can do.  The checkbox is
    controlled by [termsAccepted], so a click on it reports the opposite
    value; the login button is a [Button] with [isLoading={isLoading}]; the
    two buttons of the terms modal exist while it is open, and closing the
    modal is declining. *)
Inductive Event : Type :=
  | ClickLogin
  | SignInSettled (resolved : bool)
  | ClickCheckbox
  | ClickTermos
  | Aceitar
  | Recusar.

Definition login_disabled (w : World) : bool :=
  Button_disabled (isLoading w) None.

Definition step (w : World) (ev : Event) : World :=
  match ev with
  | ClickLogin => if login_disabled w then w else handleLogin w
  | SignInSettled resolved =>
      if Nat.eqb (inFlight w) 0 then w else handleLogin_settled resolved w
  | ClickCheckbox => onChange (negb (termsAccepted w)) w
  | ClickTermos => setIsTermsModalOpen true w
  | Aceitar => if isTermsModalOpen w then handleAcceptTerms w else w
  | Recusar => if isTermsModalOpen w then setIsTermsModalOpen false w else w
  end.

Definition run (storage : gmap string string) (evs : list Event) : World :=
  fold_left step evs (mount storage).

Definition isSignIn (c : Call) : bool :=
  match c with CSignInWithGoogle => true | _ => false end.

Definition isAceitar (ev : Event) : bool :=
  match ev with Aceitar => true | _ => false end.

End LoginScreen.

(** ** The Dashboard on screen (lines 295-497): what can happen to its state *)
Module DashboardUI.

(** The labels of the day tabs; the tab of index [i] calls
    [setDiaSelecionado(i)]. *)
Definition dias : list string := ["Dom"; "Seg"; "Ter"; "Qua"; "Qui"; "Sex"; "Sáb"].

(** The values of the options of the status select. *)
Definition statusOptions : list string := [""; "pendente"; "confirmado"; "cancelado"].

Definition setDiaSelecionado (v : Z) : M unit :=
  d ← getDashboard;
  setDashboard (mkDashboard (agendamentos d) (filteredAgendamentos d)
                  (loadingAgendamentos d) v (searchInput d) (statusFilter d)).

Definition setSearchInput (v : string) : M unit :=
  d ← getDashboard;
  setDashboard (mkDashboard (agendamentos d) (filteredAgendamentos d)
                  (loadingAgendamentos d) (diaSelecionado d) v (statusFilter d)).

Definition setStatusFilter (v : string) : M unit :=
  d ← getDashboard;
  setDashboard (mkDashboard (agendamentos d) (filteredAgendamentos d)
                  (loadingAgendamentos d) (diaSelecionado d) (searchInput d) v).

(** The clicks and keystrokes on the filters, the two handlers that talk to
    the API, and a pass of the filter effect at some instant. *)
Inductive Event : Type :=
  | ClickDia (index : nat)
  | ChangeSearch (value : string)
  | ChangeStatus (option : nat)
  | Refresh
  | Submit (dataToSend : Form.entries)
  | Effect (now : Z).

Section Machine.

Variable tza : Z.
Variable Date_parse : string → Date.
Variable remote : Remote.
Variable token : option string.

(** The component at mount, at the instant [now]: two empty arrays, the
    loading flag on, the day of the week of [now] selected. *)
Definition mount (now : Z) : World :=
  mkWorld (<[1%nat := []]> (<[0%nat := []]> ∅))
    (mkDashboard 0 1 true (default 0 (getDay tza (Some now))) "" "")
    [].

Definition step (w : World) (ev : Event) : World :=
  match ev with
  | ClickDia index =>
      match dias !! index with
      | Some _ => (setDiaSelecionado (Z.of_nat index) w).2
      | None => w
      end
  | ChangeSearch value => (setSearchInput value w).2
  | ChangeStatus option =>
      match statusOptions !! option with
      | Some value => (setStatusFilter value w).2
      | None => w
      end
  | Refresh => (fetchAgendamentos remote token w).2
  | Submit dataToSend => (handleAgendamentoSubmit remote token dataToSend w).2
  | Effect now => (filterEffect tza Date_parse now w).2
  end.

Definition run (now : Z) (evs : list Event) : World :=
  fold_left step evs (mount now).

End Machine.
End DashboardUI.

(** What the state of the filters and the source list go through, in one
    predicate: the selector is a day of the week, the status is one the
    select offers, the source list is an array of the store. *)
Definition filtersInRange (w : World) : Prop :=
  0 <= diaSelecionado (dashboard w) <= 6
  ∧ In (statusFilter (dashboard w)) DashboardUI.statusOptions
  ∧ is_Some (store w !! agendamentos (dashboard w)).

(** ** [handleStatusChange] of [AgendamentoCard] (lines 532-555) *)

(** The state/exception monad of the handlers, over any state. *)
Module SE.
Section WithState.
Context {S : Type}.

Definition T (A : Type) : Type := S → Completion A * S.

Definition ret {A : Type} (a : A) : T A := λ s, (Normal a, s).

Definition bind {A B : Type} (m : T A) (f : A → T B) : T B := λ s,
  match m s with
  | (Normal a, s') => f a s'
  | (Throw, s') => (Throw, s')
  end.

Definition throw {A : Type} : T A := λ s, (Throw, s).

Definition tryCatch {A : Type} (body handler : T A) : T A := λ s,
  match body s with
  | (Normal a, s') => (Normal a, s')
  | (Throw, s') => handler s'
  end.

Definition tryFinally {A : Type} (body : T A) (final : T unit) : T A := λ s,
  match body s with
  | (c, s') =>
      match final s' with
      | (Normal _, s'') => (c, s'')
      | (Throw, s'') => (Throw, s'')
      end
  end.

End WithState.
End SE.

Module StatusChange.

(** The card's own [useState] cell, next to the world of the page. *)
Record CardWorld : Type := mkCardWorld {
  isSubmitting : bool;
  page : World
}.

Definition C (A : Type) : Type := @SE.T CardWorld A.

#[global] Instance C_ret : MRet C := λ A, SE.ret.
#[global] Instance C_bind : MBind C := λ A B f m, SE.bind m f.

(** A step of the page's monad, run from the card. *)
Definition lift {A : Type} (m : M A) : C A := λ cw,
  match m (page cw) with
  | (c, w') => (c, mkCardWorld (isSubmitting cw) w')
  end.

Definition setIsSubmitting (v : bool) : C unit := λ cw,
  (Normal (), mkCardWorld v (page cw)).

(** A Number in a template literal: an integer prints in decimal. *)
Definition splicedNumber (n : Z) : string := NilZero.string_of_int (Z.to_int n).

Definition endpointOf (newStatus : AgendamentoCard.NewStatus) : string :=
  match newStatus with
  | AgendamentoCard.confirmado => "confirmar"
  | AgendamentoCard.cancelado => "cancelar"
  end.

(** The string that [newStatus] is. *)
Definition statusText (newStatus : AgendamentoCard.NewStatus) : string :=
  match newStatus with
  | AgendamentoCard.confirmado => "confirmado"
  | AgendamentoCard.cancelado => "cancelado"
  end.

Section Handler.

Variable remote : Remote.
(** What [supabase.auth.getUser()] settles to: [None] when it rejects,
    otherwise the user of the session, who may be absent. *)
Variable currentUser : option (option Supabase.User).
(** The [onUpdate] of the card; the Dashboard passes [fetchAgendamentos], an
    async function, which the handler does not await. *)
Variable onUpdate : M unit.

Definition getUser : C (option Supabase.User) :=
  match currentUser with
  | Some user => mret user
  | None => SE.throw
  end.

Definition url (user : Supabase.User) (endpoint : string) (agendamento : Agendamento)
    : string :=
  (API_BASE_URL ++ "/agendamentos/" ++ spliced (Supabase.email user) ++ "/"
   ++ endpoint ++ "/" ++ splicedNumber (id agendamento))%string.

Definition handleStatusChange (token : option string) (agendamento : Agendamento)
    (newStatus : AgendamentoCard.NewStatus) : C unit :=
  if negb (truthyToken token) then mret ()
  else
    setIsSubmitting true;;
    let endpoint := endpointOf newStatus in
    SE.tryFinally
      (SE.tryCatch
         (user ← getUser;
          match user with
          | None => SE.throw
          | Some user =>
              res ← lift (fetch remote "POST" (url user endpoint agendamento) token None);
              if res_ok res then
                lift (showToast ("Agendamento " ++ statusText newStatus ++ "!")%string
                        success);;
                lift (detached onUpdate)
              else
                result ← lift (json res);
                lift (showToast
                        (match body_msg result with
                         | Some m => if truthy m then m
                                     else ("Erro ao " ++ endpoint)%string
                         | None => ("Erro ao " ++ endpoint)%string
                         end) error)
          end)
         (lift (showToast ("Erro ao " ++ endpoint)%string error)))
      (setIsSubmitting false).

End Handler.
End StatusChange.

Definition usuariaAna : Supabase.User := Supabase.mkUser (Some "ana@example.com").

(** ** [debounce] (lines 64-74) *)
Module Debounce.
Section Debounced.

(** The arguments of a call, and the delay [wait] in milliseconds. *)
Context {Args : Type}.
Variable wait : Z.

(** A timeout of the host that has not run yet: its handle, the instant it
    is due, and the arguments its callback [later] closes over. *)
Record Timer : Type := mkTimer {
  handle : nat;
  due : Z;
  args : Args
}.

(** The host's clock and timeouts, the variable [timeout] of the closure
    ([None] is [undefined]), and the calls of [func] so far, each with its
    instant. *)
Record State : Type := mkState {
  clock : Z;
  pending : list Timer;
  nextHandle : nat;
  timeout : option nat;
  invoked : list (Z * Args)
}.

Definition init : State := mkState 0 [] 0 None [].

(** [clearTimeout(h)]: nothing for [undefined] or a handle that is gone. *)
Definition clearTimeout (h : option nat) (timers : list Timer) : list Timer :=
  match h with
  | Some h => List.filter (λ tm, negb (Nat.eqb (handle tm) h)) timers
  | None => timers
  end.

(** [executedFunction(...args)]: [clearTimeout(timeout)], then
    [timeout = setTimeout(later, wait)]; a negative delay counts as 0. *)
Definition executedFunction (a : Args) (st : State) : State :=
  let timers := clearTimeout (timeout st) (pending st) in
  let h := nextHandle st in
  mkState (clock st) (timers ++ [mkTimer h (clock st + Z.max 0 wait) a]) (S h)
    (Some h) (invoked st).

(** [later], the callback of the timeout [tm]: [clearTimeout(timeout)], then
    [func(...args)]. *)
Definition later (tm : Timer) (st : State) : State :=
  mkState (clock st) (clearTimeout (timeout st) (pending st)) (nextHandle st)
    (timeout st) (invoked st ++ [(clock st, args tm)]).

(** The timeout that runs next: the one due first, the older one of two due
    at the same instant. *)
Fixpoint earliest (timers : list Timer) : option Timer :=
  match timers with
  | [] => None
  | tm :: rest =>
      match earliest rest with
      | Some other => if due other <? due tm then Some other else Some tm
      | None => Some tm
      end
  end.

(** The host runs, one after the other, the timeouts due by the instant
    [t]; [later] sets no timeout, so there are at most [fuel] of them when
    [fuel] is the number pending. *)
Fixpoint fire (fuel : nat) (t : Z) (st : State) : State :=
  match fuel with
  | O => st
  | S fuel' =>
      match earliest (pending st) with
      | Some tm =>
          if due tm <=? t then
            fire fuel' t
              (later tm
                 (mkState (Z.max (clock st) (due tm))
                    (clearTimeout (Some (handle tm)) (pending st))
                    (nextHandle st) (timeout st) (invoked st)))
          else st
      | None => st
      end
  end.

(** [dt] milliseconds pass. *)
Definition elapse (dt : Z) (st : State) : State :=
  let t := clock st + Z.max 0 dt in
  let st := fire (length (pending st)) t st in
  mkState t (pending st) (nextHandle st) (timeout st) (invoked st).

Inductive Event : Type :=
  | Call (a : Args)
  | Elapse (dt : Z).

Definition step (st : State) (ev : Event) : State :=
  match ev with
  | Call a => executedFunction a st
  | Elapse dt => elapse dt st
  end.

Definition run (evs : list Event) : State := fold_left step evs init.

Definition isCall (ev : Event) : bool :=
  match ev with Call _ => true | Elapse _ => false end.

(** A burst: calls, each followed by the pause before the next one. *)
Definition burstEvents (burst : list (Args * Z)) : list Event :=
  flat_map (λ p, [Call p.1; Elapse p.2]) burst.

Definition burstLength (burst : list (Args * Z)) : Z :=
  fold_right (λ p acc, p.2 + acc) 0 burst.

Definition countCalls (evs : list Event) : nat := length (List.filter isCall evs).

(** At most one timeout is pending, the one [timeout] names; and [func] has
    run, together with what is pending, no more often than was called. *)
Definition oneTimer (calls : nat) (st : State) : Prop :=
  (length (invoked st) + length (pending st) <= calls)%nat
  ∧ (pending st = []
     ∨ ∃ tm, pending st = [tm] ∧ timeout st = Some (handle tm)).

End Debounced.
End Debounce.

(** * Properties *)

(** ** The model on known values *)

Example parseISO_epoch : parseISO 0 "1970-01-01T00:00" = Some 0.
Proof. vm_compute. reflexivity. Qed.

Example parseISO_local :
  parseISO brasilia "2025-01-15T12:00" = Some quartaMeioDia.
Proof. vm_compute. reflexivity. Qed.

Example parseISO_seconds_zone :
  parseISO brasilia "2025-01-10T09:00:30.250Z" = Some 1736499630250
  ∧ parseISO brasilia "2025-01-10T09:00:30-03:00" = Some 1736510430000.
Proof. split; vm_compute; reflexivity. Qed.

Example parseISO_rejects :
  parseISO 0 "2025-13-10T09:00" = None
  ∧ parseISO 0 "2025-01-10T" = None
  ∧ parseISO 0 "10/01/2025T09:00" = None.
Proof. repeat split; vm_compute; reflexivity. Qed.

Example getDay_wednesday : getDay brasilia (Some quartaMeioDia) = Some 3.
Proof. vm_compute. reflexivity. Qed.

Example calendar_fields :
  (YearFromTime 1709208000000, MonthFromTime 1709208000000,
   DateFromTime 1709208000000) = (2024, 1, 29).
Proof. vm_compute. reflexivity. Qed.

(** Seven days before 3 March 2024 is 25 February: the leap day is crossed. *)
Example setDate_across_months :
  setDate 0 (num_sub (getDate 0 (parseISO 0 "2024-03-03T10:00")) (Some 7))
    (parseISO 0 "2024-03-03T10:00")
  = parseISO 0 "2024-02-25T10:00".
Proof. vm_compute. reflexivity. Qed.

Example toLowerCase_ascii : toLowerCase "Ana MARIA" = "ana maria".
Proof. vm_compute. reflexivity. Qed.

(** The example of the specification: Bea at 08:00 comes before Ana at 09:00;
    and Caio, at Ana's instant, stays on the side of Ana he was on. *)
Example filtered_example :
  filtered brasilia (parseISO brasilia) quartaMeioDia "" "" (-1) [ana; bea; caio]
  = [bea; ana; caio]
  ∧ filtered brasilia (parseISO brasilia) quartaMeioDia "" "" (-1) [caio; bea; ana]
    = [bea; caio; ana].
Proof. split; vm_compute; reflexivity. Qed.

Example filtered_status_search :
  filtered brasilia (parseISO brasilia) quartaMeioDia "CAIO" "pendente" (-1)
    [ana; bea; caio] = [caio].
Proof. vm_compute. reflexivity. Qed.

(** One pass of the effect on the store: the new array 3 is displayed, the
    record without a readable date is dropped, array 2 is as it was. *)
Example filterEffect_example :
  let w' := (filterEffect brasilia (parseISO brasilia) quartaMeioDia
               (mundo [ana; semData; bea] (-1))).2 in
  filteredAgendamentos (dashboard w') = 3%nat
  ∧ store w' !! 3%nat = Some [bea; ana]
  ∧ store w' !! 2%nat = Some [ana; semData; bea].
Proof. vm_compute. repeat split; reflexivity. Qed.

(** The two outcomes of a 401, by what [signOut()] does. *)
Example fetchAgendamentos_401_example :
  calls (fetchAgendamentos (api401 true) (Some "jwt") (mundo [ana] 3)).2
  = [CFetch "GET" "https://agendamento-ynxr.onrender.com/agendamentos" "jwt" None;
     CSignOut;
     CToast "Sessão expirada. Faça login novamente." error]
  ∧ calls (fetchAgendamentos (api401 false) (Some "jwt") (mundo [ana] 3)).2
    = [CFetch "GET" "https://agendamento-ynxr.onrender.com/agendamentos" "jwt" None;
       CSignOut;
       CConsoleError "Failed to fetch agendamentos";
       CToast "Erro ao carregar agendamentos." error].
Proof. split; vm_compute; reflexivity. Qed.

(** ** Strings *)

Lemma append_cons (c : ascii) (p s : string) :
  (String c p ++ s)%string = String c (p ++ s)%string.
Proof. reflexivity. Qed.

Lemma append_nil (s : string) : ("" ++ s)%string = s.
Proof. reflexivity. Qed.

Lemma prefix_app (p s : string) :
  String.prefix p s = true ↔ ∃ suf, s = (p ++ suf)%string.
Proof.
  revert s. induction p as [|c p IH]; intros [|c' s]; simpl.
  - split; [intros _; by exists "" | done].
  - split; [intros _; by exists (String c' s) | done].
  - split; [done | intros [suf Hs]; by rewrite append_cons in Hs].
  - destruct (ascii_dec c c') as [->|Hne].
    + rewrite IH. split; intros [suf Hs]; exists suf;
        rewrite append_cons in *; congruence.
    + split; [done | intros [suf Hs]; rewrite append_cons in Hs; congruence].
Qed.

Lemma includes_app (hay needle : string) :
  includes hay needle = true ↔ ∃ pre suf, hay = (pre ++ needle ++ suf)%string.
Proof.
  induction hay as [|c hay IH]; cbn [includes].
  - rewrite orb_false_r, prefix_app. split.
    + intros [suf Hs]. by exists "", suf.
    + intros [pre [suf Hs]]. destruct pre; [by exists suf | done].
  - rewrite orb_true_iff, IH, prefix_app. split.
    + intros [[suf Hs] | [pre [suf Hs]]].
      * by exists "", suf.
      * exists (String c pre), suf. by rewrite append_cons, Hs.
    + intros [pre [suf Hs]]. destruct pre as [|c' pre].
      * left. by exists suf.
      * right. exists pre, suf. rewrite append_cons in Hs. congruence.
Qed.

Lemma includes_empty (hay : string) : includes hay "" = true.
Proof. apply includes_app. by exists "", hay. Qed.

(** ** Sorting *)
Section SortFacts.
Context {A : Type} (comparefn : A → A → option Z).

Lemma insert_Permutation (x : A) (l : list A) :
  Permutation (JSArray.insert comparefn x l) (x :: l).
Proof.
  induction l as [|y l IH]; simpl; [done|].
  destruct (_ <=? 0); [done|].
  rewrite IH. apply perm_swap.
Qed.

Lemma sort_Permutation (l : list A) : Permutation (JSArray.sort comparefn l) l.
Proof.
  induction l as [|x l IH]; simpl; [done|].
  rewrite insert_Permutation. by constructor.
Qed.

Lemma sort_In (l : list A) (x : A) : In x (JSArray.sort comparefn l) ↔ In x l.
Proof.
  split; apply Permutation_in; [|symmetry]; apply sort_Permutation.
Qed.

(** Stability: an element goes past its strict predecessors only, so the
    elements that a predicate selects keep their order as long as it never
    selects two elements of which one is strictly before the other. *)
Lemma insert_filter (sel : A → bool) (x : A) (l : list A) :
  (∀ y, sel x = true → sel y = true → JSArray.SortCompare comparefn x y <= 0) →
  List.filter sel (JSArray.insert comparefn x l) = List.filter sel (x :: l).
Proof.
  intros Hsel. induction l as [|y l IH]; [done|].
  simpl. destruct (Z.leb_spec (JSArray.SortCompare comparefn x y) 0) as [Hle|Hgt];
    [done|].
  simpl. simpl in IH. rewrite IH.
  destruct (sel x) eqn:Hx, (sel y) eqn:Hy; try done.
  specialize (Hsel y eq_refl Hy). lia.
Qed.

Lemma sort_filter (sel : A → bool) (l : list A) :
  (∀ x y, sel x = true → sel y = true → JSArray.SortCompare comparefn x y <= 0) →
  List.filter sel (JSArray.sort comparefn l) = List.filter sel l.
Proof.
  intros Hsel. induction l as [|x l IH]; [done|].
  simpl JSArray.sort. rewrite insert_filter by (intros; by apply Hsel).
  simpl. by rewrite IH.
Qed.

End SortFacts.

(** ** Calendar arithmetic *)

(** Case analysis on the next comparison that the goal tests. *)
Ltac split_test :=
  match goal with
  | |- context [(?x <? ?y)] => destruct (Z.ltb_spec x y)
  | |- context [(?x <=? ?y)] => destruct (Z.leb_spec x y)
  | |- context [(?x =? ?y)] => destruct (Z.eqb_spec x y)
  end.
Ltac case_cmp := repeat split_test.

(** [YearFromDay] is the year of the standard: the largest one that starts on
    or before the day. *)
Lemma YearFromDay_spec (d : Z) :
  DayFromYear (YearFromDay d) <= d < DayFromYear (YearFromDay d + 1).
Proof.
  unfold YearFromDay, DayFromYear.
  case_cmp; Z.to_euclidean_division_equations; lia.
Qed.

Lemma DaysInYear_spec (y : Z) :
  DaysInYear y = DayFromYear (y + 1) - DayFromYear y.
Proof.
  unfold DaysInYear, DayFromYear.
  case_cmp; simpl; Z.to_euclidean_division_equations; lia.
Qed.

Lemma MonthFromTime_range (t : Z) : 0 <= MonthFromTime t <= 11.
Proof. unfold MonthFromTime. case_cmp; lia. Qed.

Lemma DateFromTime_pos (t : Z) : 1 <= DateFromTime t.
Proof.
  pose proof (YearFromDay_spec (Day t)).
  unfold DateFromTime, MonthFromTime, monthStart, DayWithinYear, YearFromTime in *.
  set (l := InLeapYear t).
  assert (0 <= l <= 1) by (subst l; unfold InLeapYear; case_cmp; lia).
  clearbody l. case_cmp; lia.
Qed.

(** Moving the day of the month by [k] moves the day number by [k]: this is
    how [setDate(getDate() - 7)] goes back seven days across months and
    years. *)
Lemma MakeDay_shift (t k : Z) :
  MakeDay (YearFromTime t) (MonthFromTime t) (DateFromTime t + k) = Day t + k.
Proof.
  pose proof (MonthFromTime_range t) as Hm.
  unfold MakeDay, DateFromTime, DayWithinYear.
  rewrite (Z.div_small (MonthFromTime t) 12), (Z.mod_small (MonthFromTime t) 12) by lia.
  rewrite Z.add_0_r. fold (InLeapYear t). lia.
Qed.

Lemma Day_shift (t k : Z) : Day (t + k * msPerDay) = Day t + k.
Proof. unfold Day, msPerDay. by rewrite Z.div_add. Qed.

Lemma MakeDate_split (t : Z) : MakeDate (Day t) (TimeWithinDay t) = t.
Proof.
  unfold MakeDate, Day, TimeWithinDay, msPerDay.
  Z.to_euclidean_division_equations; lia.
Qed.

Lemma startOfDay_bounds (tza t : Z) :
  startOfDay tza t <= t < startOfDay tza t + msPerDay.
Proof.
  unfold startOfDay, UTC, LocalTime, Day, msPerDay.
  Z.to_euclidean_division_equations; lia.
Qed.

Lemma startOfDay_shift (tza t k : Z) :
  startOfDay tza (t + k * msPerDay) = startOfDay tza t + k * msPerDay.
Proof.
  unfold startOfDay, UTC, LocalTime.
  replace (t + k * msPerDay + tza) with (t + tza + k * msPerDay) by lia.
  rewrite Day_shift. lia.
Qed.

Lemma TimeClip_representable (t : Z) : representable t → TimeClip t = Some t.
Proof.
  unfold representable, TimeClip. intros H.
  rewrite Z.gtb_ltb. destruct (Z.ltb_spec maxTime (Z.abs t)); [lia | done].
Qed.

Lemma TimeClip_Some (t u : Z) : TimeClip t = Some u → u = t ∧ representable t.
Proof.
  unfold representable, TimeClip. rewrite Z.gtb_ltb.
  destruct (Z.ltb_spec maxTime (Z.abs t)); [done|]. intros [= <-]. lia.
Qed.

(** [hoje]: [setHours(0, 0, 0, 0)] on the current instant. *)
Lemma setHours_start (tza now : Z) :
  setHours tza 0 0 0 0 (Some now) = TimeClip (startOfDay tza now).
Proof. unfold setHours, startOfDay, MakeDate, MakeTime. simpl. do 2 f_equal. lia. Qed.

(** [hojeFim]: [setHours(23, 59, 59, 999)] on the current instant. *)
Lemma setHours_end (tza now : Z) :
  setHours tza 23 59 59 999 (Some now) = TimeClip (endOfDay tza now).
Proof.
  unfold setHours, endOfDay, startOfDay, MakeDate, MakeTime, UTC. simpl.
  f_equal. unfold msPerHour, msPerMinute, msPerSecond, msPerDay. lia.
Qed.

(** [setDate(getDate() - 7)] on the current instant: seven days earlier, at
    the same time of day. *)
Lemma setDate_week (tza now : Z) :
  setDate tza (num_sub (getDate tza (Some now)) (Some 7)) (Some now)
  = TimeClip (now - 7 * msPerDay).
Proof.
  unfold setDate, getDate, num_sub. simpl.
  replace (DateFromTime (LocalTime tza now) - 7)
    with (DateFromTime (LocalTime tza now) + -7) by lia.
  rewrite MakeDay_shift. f_equal.
  pose proof (MakeDate_split (LocalTime tza now)) as Hs.
  unfold MakeDate, UTC, LocalTime in *. lia.
Qed.

(** [umaSemanaAtras], where the instant seven days back is representable. *)
Lemma umaSemanaAtras_start (tza now : Z) :
  representable (now - 7 * msPerDay) →
  setHours tza 0 0 0 0
    (setDate tza (num_sub (getDate tza (Some now)) (Some 7)) (Some now))
  = TimeClip (weekBefore tza now).
Proof.
  intros Hr. rewrite setDate_week, TimeClip_representable by done.
  rewrite setHours_start. f_equal. unfold weekBefore.
  replace (now - 7 * msPerDay) with (now + -7 * msPerDay) by lia.
  rewrite startOfDay_shift. lia.
Qed.

(** ** The filter and the sort of the effect *)
Section FilterSortFacts.

Variable tza : Z.
Variable Date_parse : string → Date.

Local Abbreviation instant a := (dataAgendamento Date_parse a).

Lemma SortCompare_comparefn (a b : Agendamento) (x y : Z) :
  instant a = Some x → instant b = Some y →
  JSArray.SortCompare (comparefn Date_parse) a b = x - y.
Proof.
  unfold JSArray.SortCompare, comparefn, getTime. by intros -> ->.
Qed.

Lemma notAfter_trans (a b c : Agendamento) :
  notAfter Date_parse a b → notAfter Date_parse b c → notAfter Date_parse a c.
Proof.
  intros (x & y & Ha & Hb & Hxy) (y' & z & Hb' & Hc & Hyz).
  exists x, z. repeat split; try done. rewrite Hb in Hb'. injection Hb' as <-. lia.
Qed.

Lemma insert_sorted (x : Agendamento) (l : list Agendamento) :
  is_Some (instant x) →
  Forall (λ a, is_Some (instant a)) l →
  StronglySorted (notAfter Date_parse) l →
  StronglySorted (notAfter Date_parse) (JSArray.insert (comparefn Date_parse) x l).
Proof.
  intros [tx Hx] Hall Hs. induction l as [|y l IH]; simpl.
  - repeat constructor.
  - apply Forall_cons_1 in Hall as [[ty Hy] Hall].
    apply StronglySorted_inv in Hs as [Hs Hy_le].
    rewrite (SortCompare_comparefn x y tx ty) by done.
    destruct (Z.leb_spec (tx - ty) 0) as [Hle|Hgt].
    + assert (notAfter Date_parse x y) as Hxy by (exists tx, ty; repeat split; [done..|lia]).
      constructor; [by constructor|].
      constructor; [done|].
      eapply Forall_impl; [exact Hy_le|].
      intros z Hz. by apply (notAfter_trans x y z).
    + constructor; [by apply IH|].
      eapply Permutation_Forall; [symmetry; apply insert_Permutation|].
      constructor; [|done]. exists ty, tx. repeat split; [done..|lia].
Qed.

Lemma sort_sorted (l : list Agendamento) :
  Forall (λ a, is_Some (instant a)) l →
  StronglySorted (notAfter Date_parse) (JSArray.sort (comparefn Date_parse) l).
Proof.
  induction l as [|x l IH]; intros Hall; simpl; [constructor|].
  apply Forall_cons_1 in Hall as [Hx Hall].
  apply insert_sorted; [done| |by apply IH].
  eapply Permutation_Forall; [symmetry; apply sort_Permutation|done].
Qed.

(** Two records at one instant compare as equal. *)
Lemma atInstant_SortCompare (t : Z) (a b : Agendamento) :
  atInstant Date_parse t a = true → atInstant Date_parse t b = true →
  JSArray.SortCompare (comparefn Date_parse) a b <= 0.
Proof.
  unfold atInstant, num_eq. intros Ha Hb.
  destruct (instant a) as [x|] eqn:Ea; [|done].
  destruct (instant b) as [y|] eqn:Eb; [|done].
  rewrite (SortCompare_comparefn a b x y) by done.
  apply Z.eqb_eq in Ha, Hb. lia.
Qed.

Lemma atInstant_self (a : Agendamento) (t : Z) :
  instant a = Some t → atInstant Date_parse t a = true.
Proof. unfold atInstant. intros ->. apply Z.eqb_refl. Qed.

Lemma atInstant_inv (a : Agendamento) (t : Z) :
  atInstant Date_parse t a = true → instant a = Some t.
Proof.
  unfold atInstant, num_eq. destruct (instant a); [|done].
  by intros ->%Z.eqb_eq.
Qed.

(** Sortedness and stability leave one list only: whatever stable sort the
    host runs, on records that all have an instant it returns the list of the
    model. *)
Lemma sorted_stable_unique (l1 l2 : list Agendamento) :
  Forall (λ a, is_Some (instant a)) l1 →
  Forall (λ a, is_Some (instant a)) l2 →
  StronglySorted (notAfter Date_parse) l1 →
  StronglySorted (notAfter Date_parse) l2 →
  (∀ t, List.filter (atInstant Date_parse t) l1
        = List.filter (atInstant Date_parse t) l2) →
  l1 = l2.
Proof.
  revert l2. induction l1 as [|x r1 IH]; intros l2 Hv1 Hv2 Hs1 Hs2 Heq.
  - destruct l2 as [|y r2]; [done|].
    apply Forall_cons_1 in Hv2 as [[ty Hy] _].
    specialize (Heq ty). cbn in Heq. by rewrite (atInstant_self y ty) in Heq.
  - apply Forall_cons_1 in Hv1 as [[tx Hx] Hv1].
    apply StronglySorted_inv in Hs1 as [Hs1 Hx_le].
    destruct l2 as [|y r2].
    { specialize (Heq tx). cbn in Heq. by rewrite (atInstant_self x tx) in Heq. }
    apply Forall_cons_1 in Hv2 as [[ty Hy] Hv2].
    apply StronglySorted_inv in Hs2 as [Hs2 Hy_le].
    assert (ty <= tx) as Hle1.
    { assert (In x (List.filter (atInstant Date_parse tx) (y :: r2))) as Hin.
      { rewrite <- Heq. cbn. rewrite (atInstant_self x tx) by done. by left. }
      apply filter_In in Hin as [[<- | Hin] _];
        [assert (tx = ty) by congruence; lia|].
      rewrite List.Forall_forall in Hy_le.
      destruct (Hy_le x Hin) as (u & v & Hu & Hv & Huv).
      assert (u = ty ∧ v = tx) as [-> ->] by (split; congruence). done. }
    assert (tx <= ty) as Hle2.
    { assert (In y (List.filter (atInstant Date_parse ty) (x :: r1))) as Hin.
      { rewrite Heq. cbn. rewrite (atInstant_self y ty) by done. by left. }
      apply filter_In in Hin as [[<- | Hin] _];
        [assert (tx = ty) by congruence; lia|].
      rewrite List.Forall_forall in Hx_le.
      destruct (Hx_le y Hin) as (u & v & Hu & Hv & Huv).
      assert (u = tx ∧ v = ty) as [-> ->] by (split; congruence). done. }
    assert (tx = ty) as <- by lia.
    assert (x = y) as <-.
    { specialize (Heq tx). cbn in Heq.
      rewrite (atInstant_self x tx), (atInstant_self y tx) in Heq by done.
      congruence. }
    f_equal. apply IH; try done.
    intros t. specialize (Heq t). cbn in Heq.
    destruct (atInstant Date_parse t x); congruence.
Qed.

Lemma sort_canonical (l out : list Agendamento) :
  Forall (λ a, is_Some (instant a)) l →
  Forall (λ a, is_Some (instant a)) out →
  StronglySorted (notAfter Date_parse) out →
  (∀ t, List.filter (atInstant Date_parse t) out
        = List.filter (atInstant Date_parse t) l) →
  out = JSArray.sort (comparefn Date_parse) l.
Proof.
  intros Hl Hout Hs Hstable. apply sorted_stable_unique; try done.
  - eapply Permutation_Forall; [symmetry; apply sort_Permutation|done].
  - by apply sort_sorted.
  - intros t. rewrite Hstable. symmetry. apply sort_filter.
    intros x y. apply atInstant_SortCompare.
Qed.

(** *** The date condition, branch by branch *)

Lemma matchesDate_weekday (now dia : Z) (a : Agendamento) :
  0 <= dia <= 6 →
  matchesDate tza Date_parse now dia a = true →
  ∃ t, instant a = Some t
       ∧ WeekDay (LocalTime tza t) = dia
       ∧ startOfDay tza now <= t.
Proof.
  intros Hdia. unfold matchesDate. rewrite setHours_start.
  destruct (Z.leb_spec 0 dia); [|lia]. destruct (Z.leb_spec dia 6); [|lia].
  cbn [andb]. intros [Hday Hge]%andb_true_iff.
  destruct (instant a) as [t|]; [|done]. exists t.
  cbn in Hday. apply Z.eqb_eq in Hday.
  destruct (TimeClip (startOfDay tza now)) as [h|] eqn:Hh; [|done].
  apply TimeClip_Some in Hh as [-> _]. cbn in Hge. apply Z.leb_le in Hge.
  done.
Qed.

Lemma matchesDate_weekday_iff (now dia t : Z) (a : Agendamento) :
  0 <= dia <= 6 →
  representable (startOfDay tza now) →
  instant a = Some t →
  WeekDay (LocalTime tza t) = dia →
  matchesDate tza Date_parse now dia a = true ↔ startOfDay tza now <= t.
Proof.
  intros Hdia Hrep Ht Hwd. unfold matchesDate.
  rewrite setHours_start, TimeClip_representable, Ht by done.
  destruct (Z.leb_spec 0 dia); [|lia]. destruct (Z.leb_spec dia 6); [|lia].
  cbn [andb getDay mbind option_bind num_eq num_ge].
  rewrite Hwd, Z.eqb_refl. cbn [andb]. apply Z.leb_le.
Qed.

Lemma matchesDate_lastWeek (now : Z) (a : Agendamento) :
  representable (weekBefore tza now) →
  representable (endOfDay tza now) →
  matchesDate tza Date_parse now (-1) a = true
  ↔ ∃ t, instant a = Some t ∧ weekBefore tza now <= t <= endOfDay tza now.
Proof.
  intros Hlo Hhi. unfold matchesDate.
  assert (representable (now - 7 * msPerDay)) as Hmid.
  { pose proof (startOfDay_bounds tza now).
    unfold representable, weekBefore, endOfDay in *. lia. }
  rewrite umaSemanaAtras_start, setHours_end by done.
  rewrite !TimeClip_representable by done.
  change ((0 <=? -1) && (-1 <=? 6)) with false. change (-1 =? -1) with true.
  cbv iota. destruct (instant a) as [t|]; cbn [num_ge num_le].
  - rewrite andb_true_iff, !Z.leb_le. split.
    + intros [? ?]. by exists t.
    + intros (t' & [= <-] & ? & ?). done.
  - split; [done | by intros (t' & ? & _)].
Qed.

Lemma matchesDate_other (now dia : Z) (a : Agendamento) :
  ¬ (-1 <= dia <= 6) → matchesDate tza Date_parse now dia a = false.
Proof.
  intros Hdia. unfold matchesDate.
  destruct (Z.eqb_spec dia (-1)) as [->|Hne]; [lia|].
  destruct (Z.leb_spec 0 dia), (Z.leb_spec dia 6); cbn [andb]; first [done | lia].
Qed.

Lemma matchesDate_NaN (now dia : Z) (a : Agendamento) :
  instant a = None → matchesDate tza Date_parse now dia a = false.
Proof.
  intros Hnan. unfold matchesDate. rewrite Hnan.
  by repeat case_match.
Qed.

Lemma matchesDate_instant (now dia : Z) (a : Agendamento) :
  matchesDate tza Date_parse now dia a = true → is_Some (instant a).
Proof.
  intros Hm. destruct (instant a) eqn:E; [done|].
  by rewrite matchesDate_NaN in Hm.
Qed.

Lemma In_filtered (now : Z) (s st : string) (dia : Z) (L : list Agendamento)
    (a : Agendamento) :
  In a (filtered tza Date_parse now s st dia L)
  ↔ In a L ∧ filterCallback tza Date_parse now s st dia a = true.
Proof.
  unfold filtered, JSArray.filter. by rewrite sort_In, filter_In.
Qed.

Lemma filterCallback_true (now : Z) (s st : string) (dia : Z) (a : Agendamento) :
  filterCallback tza Date_parse now s st dia a = true
  ↔ matchesSearch (toLowerCase s) a = true
    ∧ matchesStatus st a = true
    ∧ matchesDate tza Date_parse now dia a = true.
Proof. unfold filterCallback. rewrite !andb_true_iff. tauto. Qed.

Lemma matchesSearch_contains (s : string) (a : Agendamento) :
  matchesSearch (toLowerCase s) a = true →
  containsIgnoringCase s (nome a)
  ∨ ∃ e, email a = Some e ∧ containsIgnoringCase s e.
Proof.
  unfold matchesSearch, containsIgnoringCase.
  intros [Hn | He]%orb_true_iff.
  - left. by apply includes_app.
  - right. destruct (email a) as [e|]; [|done].
    apply andb_true_iff in He as [_ He]. exists e. split; [done|].
    by apply includes_app.
Qed.

End FilterSortFacts.

(** ** The claims on the filtered and sorted list *)

(** C1. The output of the filter/sort is ordered non-decreasingly by composed
    date-time, and the records at one instant come in the order they have in
    the input list. *)
Theorem filtered_sorted_stable (tza : Z) (Date_parse : string → Date) (now : Z)
    (s st : string) (dia : Z) (L : list Agendamento) :
  StronglySorted (notAfter Date_parse) (filtered tza Date_parse now s st dia L)
  ∧ ∀ t, List.filter (atInstant Date_parse t) (filtered tza Date_parse now s st dia L)
         = List.filter (atInstant Date_parse t)
             (List.filter (filterCallback tza Date_parse now s st dia) L).
Proof.
  split.
  - apply sort_sorted, List.Forall_forall. intros a [_ Ha]%filter_In.
    apply filterCallback_true in Ha as (_ & _ & Hd).
    by apply matchesDate_instant in Hd.
  - intros t. apply sort_filter. intros x y. apply atInstant_SortCompare.
Qed.

(** C2. Every record of the output contains the search string, letter case
    apart, in its name or in its email; and the empty search string is matched
    by every record. *)
Theorem search_match (tza : Z) (Date_parse : string → Date) (now : Z)
    (s st : string) (dia : Z) (L : list Agendamento) :
  (∀ a, In a (filtered tza Date_parse now s st dia L) →
        containsIgnoringCase s (nome a)
        ∨ ∃ e, email a = Some e ∧ containsIgnoringCase s e)
  ∧ (∀ a, matchesSearch (toLowerCase "") a = true).
Proof.
  split.
  - intros a [_ Ha]%In_filtered.
    apply filterCallback_true in Ha as (Hs & _ & _).
    by apply matchesSearch_contains.
  - intros a. unfold matchesSearch. cbn [toLowerCase].
    by rewrite includes_empty.
Qed.

Lemma search_match_witness :
  In caio (filtered brasilia (parseISO brasilia) quartaMeioDia "Example" "" (-1)
             [ana; bea; caio])
  ∧ (containsIgnoringCase "Example" (nome caio)
     ∨ ∃ e, email caio = Some e ∧ containsIgnoringCase "Example" e).
Proof.
  assert (In caio (filtered brasilia (parseISO brasilia) quartaMeioDia "Example" ""
                     (-1) [ana; bea; caio])) as Hin.
  { vm_compute. auto. }
  split; [exact Hin|].
  exact (proj1 (search_match brasilia (parseISO brasilia) quartaMeioDia "Example" ""
                  (-1) [ana; bea; caio]) caio Hin).
Defined.

(** C3. With a day selector in 0..6, a record is in the output only if its
    composed date-time falls on that day of the week (0 is Sunday) and is not
    before 00:00:00 of the current calendar day.  In particular, of the
    records of the list that fall on the selected day of the week and pass
    the other two conditions, the output has those that are not before the
    start of today, and no other. *)
Theorem weekday_selector (tza : Z) (Date_parse : string → Date) (now : Z)
    (s st : string) (dia : Z) (L : list Agendamento) :
  0 <= dia <= 6 →
  (∀ a, In a (filtered tza Date_parse now s st dia L) →
        ∃ t, dataAgendamento Date_parse a = Some t
             ∧ WeekDay (LocalTime tza t) = dia
             ∧ startOfDay tza now <= t)
  ∧ (representable (startOfDay tza now) →
     ∀ a t, In a L →
            matchesSearch (toLowerCase s) a = true →
            matchesStatus st a = true →
            dataAgendamento Date_parse a = Some t →
            WeekDay (LocalTime tza t) = dia →
            In a (filtered tza Date_parse now s st dia L)
            ↔ startOfDay tza now <= t).
Proof.
  intros Hdia. split.
  - intros a [_ Ha]%In_filtered.
    apply filterCallback_true in Ha as (_ & _ & Hd).
    by apply (matchesDate_weekday tza Date_parse now).
  - intros Hrep a t Hin Hs Hst Ht Hwd.
    rewrite In_filtered, filterCallback_true.
    rewrite (matchesDate_weekday_iff tza Date_parse now dia t) by done.
    tauto.
Qed.

Lemma weekday_selector_witness :
  0 <= 0 <= 6
  ∧ filtered brasilia (parseISO brasilia) quartaMeioDia "" "" 0
      [domingoPassado; domingoFuturo] = [domingoFuturo]
  ∧ (∃ t, dataAgendamento (parseISO brasilia) domingoFuturo = Some t
          ∧ WeekDay (LocalTime brasilia t) = 0
          ∧ startOfDay brasilia quartaMeioDia <= t)
  ∧ ¬ In domingoPassado
        (filtered brasilia (parseISO brasilia) quartaMeioDia "" "" 0
           [domingoPassado; domingoFuturo]).
Proof.
  assert (0 <= 0 <= 6) as Hdia by lia.
  assert (filtered brasilia (parseISO brasilia) quartaMeioDia "" "" 0
            [domingoPassado; domingoFuturo] = [domingoFuturo]) as Hout
    by (vm_compute; reflexivity).
  pose proof (weekday_selector brasilia (parseISO brasilia) quartaMeioDia "" "" 0
                [domingoPassado; domingoFuturo] Hdia) as [Honly Hexact].
  split; [exact Hdia|]. split; [exact Hout|]. split.
  - apply Honly. rewrite Hout. left. reflexivity.
  - assert (representable (startOfDay brasilia quartaMeioDia)) as Hrep
      by (vm_compute; discriminate).
    assert (dataAgendamento (parseISO brasilia) domingoPassado = Some 1736686800000)
      as Ht by (vm_compute; reflexivity).
    assert (WeekDay (LocalTime brasilia 1736686800000) = 0) as Hwd
      by (vm_compute; reflexivity).
    intros Hin.
    apply (proj1 (Hexact Hrep domingoPassado 1736686800000
                    (or_introl eq_refl) eq_refl eq_refl Ht Hwd)) in Hin.
    vm_compute in Hin. by apply Hin.
Defined.

(** C4. With the day selector -1, a record is in the output if and only if it
    is in the list, passes the search and the status conditions, and its
    composed date-time lies between 00:00:00 seven days before the current day
    and 23:59:59.999 of the current day, both included.  The two ends of the
    interval are taken to be time values a Date can hold. *)
Theorem last_week_selector (tza : Z) (Date_parse : string → Date) (now : Z)
    (s st : string) (L : list Agendamento) (a : Agendamento) :
  representable (weekBefore tza now) →
  representable (endOfDay tza now) →
  In a (filtered tza Date_parse now s st (-1) L)
  ↔ In a L
    ∧ matchesSearch (toLowerCase s) a = true
    ∧ matchesStatus st a = true
    ∧ ∃ t, dataAgendamento Date_parse a = Some t
           ∧ weekBefore tza now <= t <= endOfDay tza now.
Proof.
  intros Hlo Hhi.
  rewrite In_filtered, filterCallback_true, matchesDate_lastWeek by done.
  tauto.
Qed.

Lemma last_week_selector_witness :
  representable (weekBefore brasilia quartaMeioDia)
  ∧ representable (endOfDay brasilia quartaMeioDia)
  ∧ In bea (filtered brasilia (parseISO brasilia) quartaMeioDia "" "" (-1)
              [ana; bea; domingoFuturo])
  ∧ ¬ In domingoFuturo (filtered brasilia (parseISO brasilia) quartaMeioDia "" ""
                          (-1) [ana; bea; domingoFuturo]).
Proof.
  assert (representable (weekBefore brasilia quartaMeioDia)) as Hlo
    by (vm_compute; discriminate).
  assert (representable (endOfDay brasilia quartaMeioDia)) as Hhi
    by (vm_compute; discriminate).
  split; [exact Hlo|]. split; [exact Hhi|]. split.
  - apply (proj2 (last_week_selector brasilia (parseISO brasilia) quartaMeioDia
                    "" "" [ana; bea; domingoFuturo] bea Hlo Hhi)).
    split; [simpl; auto|]. split; [vm_compute; reflexivity|].
    split; [vm_compute; reflexivity|].
    exists 1736506800000. split; [vm_compute; reflexivity|].
    vm_compute. split; discriminate.
  - intros Hin.
    destruct (proj1 (last_week_selector brasilia (parseISO brasilia) quartaMeioDia
                       "" "" [ana; bea; domingoFuturo] domingoFuturo Hlo Hhi) Hin)
      as (_ & _ & _ & t & Ht & _ & Hle).
    vm_compute in Ht. injection Ht as <-. vm_compute in Hle. apply Hle. reflexivity.
Defined.

(** C5, as the specification has it, fails: with the selector -2 a record that
    passes the search and the status conditions is not in the output. *)
Lemma other_selector_counterexample :
  matchesSearch (toLowerCase "") ana = true
  ∧ matchesStatus "" ana = true
  ∧ ¬ In ana (filtered brasilia (parseISO brasilia) quartaMeioDia "" "" (-2) [ana]).
Proof.
  split; [vm_compute; reflexivity|]. split; [vm_compute; reflexivity|].
  vm_compute. tauto.
Qed.

(** C5, amended. With a day selector outside -1..6 the date condition holds of
    no record: the output is empty, whatever the list and the other filters. *)
Theorem other_selector_empty (tza : Z) (Date_parse : string → Date) (now : Z)
    (s st : string) (dia : Z) (L : list Agendamento) :
  ¬ (-1 <= dia <= 6) →
  filtered tza Date_parse now s st dia L = [].
Proof.
  intros Hdia. unfold filtered, JSArray.filter.
  replace (List.filter _ L) with (@nil Agendamento); [done|].
  symmetry. induction L as [|a L IH]; [done|]. simpl.
  unfold filterCallback at 1. rewrite matchesDate_other by done.
  by rewrite andb_false_r.
Qed.

Lemma other_selector_empty_witness :
  ¬ (-1 <= -2 <= 6)
  ∧ filtered brasilia (parseISO brasilia) quartaMeioDia "" "" (-2) [ana; bea] = [].
Proof.
  split; [lia|].
  apply (other_selector_empty brasilia (parseISO brasilia) quartaMeioDia "" "" (-2)
           [ana; bea]).
  lia.
Defined.

(** ** The effect on the store *)

Lemma filter_sublist {A : Type} (f : A → bool) (l : list A) :
  sublist (List.filter f l) l.
Proof.
  induction l as [|x l IH]; simpl; [constructor|].
  destruct (f x); by constructor.
Qed.

(** One pass of the effect: a new array, sorted in place, becomes
    [filteredAgendamentos]; nothing else is written. *)
Lemma filterEffect_run (tza : Z) (Date_parse : string → Date) (now : Z)
    (w : World) (L : list Agendamento) :
  store w !! agendamentos (dashboard w) = Some L →
  let d := dashboard w in
  let l := fresh (dom (store w)) in
  let kept := JSArray.filter
                (filterCallback tza Date_parse now (searchInput d) (statusFilter d)
                   (diaSelecionado d)) L in
  filterEffect tza Date_parse now w
  = (Normal (),
     mkWorld (<[l := JSArray.sort (comparefn Date_parse) kept]> (<[l := kept]> (store w)))
       (mkDashboard (agendamentos d) l (loadingAgendamentos d) (diaSelecionado d)
          (searchInput d) (statusFilter d))
       (calls w)).
Proof.
  intros HL. cbv zeta.
  unfold filterEffect, Array_filter, Array_sort, setFilteredAgendamentos,
    getDashboard, setDashboard, readArray, newArray, writeArray,
    mbind, mret, M_bind, M_ret.
  cbn [store dashboard calls]. rewrite HL. cbn [store dashboard calls].
  by rewrite lookup_insert_eq.
Qed.

Lemma fresh_lookup (σ : gmap nat (list Agendamento)) (l : nat)
    (xs : list Agendamento) :
  σ !! l = Some xs → l ≠ fresh (dom σ).
Proof.
  intros Hl ->. apply (is_fresh (dom σ)). apply elem_of_dom. by exists xs.
Qed.

(** C6. The effect completes without an exception on every list, also on
    records whose date and time do not parse to an instant; such a record is
    not in the displayed list. *)
Theorem filterEffect_total (tza : Z) (Date_parse : string → Date) (now : Z)
    (w : World) (L : list Agendamento) :
  store w !! agendamentos (dashboard w) = Some L →
  ∃ w' out,
    filterEffect tza Date_parse now w = (Normal (), w')
    ∧ store w' !! filteredAgendamentos (dashboard w') = Some out
    ∧ ∀ a, dataAgendamento Date_parse a = None → ¬ In a out.
Proof.
  intros HL. eexists _, _. split; [by apply filterEffect_run|].
  cbn [store dashboard filteredAgendamentos]. split; [apply lookup_insert_eq|].
  intros a Hnan [_ Ha]%sort_In%filter_In.
  apply filterCallback_true in Ha as (_ & _ & Hd).
  by rewrite matchesDate_NaN in Hd.
Qed.

Lemma filterEffect_total_witness :
  store (mundo [ana; semData; bea] (-1))
    !! agendamentos (dashboard (mundo [ana; semData; bea] (-1)))
  = Some [ana; semData; bea]
  ∧ dataAgendamento (parseISO brasilia) semData = None
  ∧ ∃ w' out,
      filterEffect brasilia (parseISO brasilia) quartaMeioDia
        (mundo [ana; semData; bea] (-1)) = (Normal (), w')
      ∧ store w' !! filteredAgendamentos (dashboard w') = Some out
      ∧ ∀ a, dataAgendamento (parseISO brasilia) a = None → ¬ In a out.
Proof.
  split; [vm_compute; reflexivity|]. split; [vm_compute; reflexivity|].
  apply (filterEffect_total brasilia (parseISO brasilia) quartaMeioDia
           (mundo [ana; semData; bea] (-1)) [ana; semData; bea]).
  vm_compute; reflexivity.
Defined.

(** C7. The effect leaves every array of the store as it was, the source
    list among them (same records, same order), and the displayed list is a
    permutation of a sublist of the source list. *)
Theorem filterEffect_preserves (tza : Z) (Date_parse : string → Date) (now : Z)
    (w : World) (L : list Agendamento) :
  store w !! agendamentos (dashboard w) = Some L →
  ∃ w' out,
    filterEffect tza Date_parse now w = (Normal (), w')
    ∧ (∀ l xs, store w !! l = Some xs → store w' !! l = Some xs)
    ∧ agendamentos (dashboard w') = agendamentos (dashboard w)
    ∧ store w' !! agendamentos (dashboard w') = Some L
    ∧ store w' !! filteredAgendamentos (dashboard w') = Some out
    ∧ ∃ sub, sublist sub L ∧ Permutation out sub.
Proof.
  intros HL. eexists _, _. split; [by apply filterEffect_run|].
  cbn [store dashboard agendamentos filteredAgendamentos].
  assert (∀ l xs, store w !! l = Some xs →
          <[fresh (dom (store w)) :=
              JSArray.sort (comparefn Date_parse)
                (JSArray.filter
                   (filterCallback tza Date_parse now (searchInput (dashboard w))
                      (statusFilter (dashboard w)) (diaSelecionado (dashboard w))) L)]>
            (<[fresh (dom (store w)) :=
                 JSArray.filter
                   (filterCallback tza Date_parse now (searchInput (dashboard w))
                      (statusFilter (dashboard w)) (diaSelecionado (dashboard w))) L]>
               (store w)) !! l = Some xs) as Hkeep.
  { intros l xs Hl. pose proof (fresh_lookup _ _ _ Hl) as Hne.
    by rewrite !lookup_insert_ne. }
  split; [exact Hkeep|]. split; [done|]. split; [by apply Hkeep|].
  split; [apply lookup_insert_eq|].
  eexists. split; [apply filter_sublist|apply sort_Permutation].
Qed.

Lemma filterEffect_preserves_witness :
  store (mundo [ana; bea; caio] (-1))
    !! agendamentos (dashboard (mundo [ana; bea; caio] (-1)))
  = Some [ana; bea; caio]
  ∧ ∃ w' out,
      filterEffect brasilia (parseISO brasilia) quartaMeioDia
        (mundo [ana; bea; caio] (-1)) = (Normal (), w')
      ∧ (∀ l xs, store (mundo [ana; bea; caio] (-1)) !! l = Some xs →
                 store w' !! l = Some xs)
      ∧ agendamentos (dashboard w') = agendamentos (dashboard (mundo [ana; bea; caio] (-1)))
      ∧ store w' !! agendamentos (dashboard w') = Some [ana; bea; caio]
      ∧ store w' !! filteredAgendamentos (dashboard w') = Some out
      ∧ ∃ sub, sublist sub [ana; bea; caio] ∧ Permutation out sub.
Proof.
  split; [vm_compute; reflexivity|].
  apply (filterEffect_preserves brasilia (parseISO brasilia) quartaMeioDia
           (mundo [ana; bea; caio] (-1)) [ana; bea; caio]).
  vm_compute; reflexivity.
Defined.

(** ** The handlers *)

Lemma newCalls_app (σ σ' : gmap nat (list Agendamento)) (d d' : Dashboard)
    (cs new : list Call) :
  newCalls (mkWorld σ d cs) (mkWorld σ' d' (cs ++ new)) = new.
Proof. unfold newCalls. cbn [calls]. apply drop_app_length. Qed.

Lemma newCalls_same (w : World) : newCalls w w = [].
Proof. unfold newCalls. apply drop_all. Qed.

(** C8. On a 401 from [GET /agendamentos] the fetch handler signs out once,
    shows one error notification, sends no second request and leaves the
    appointment list as it was. *)
Theorem fetchAgendamentos_401 (remote : Remote) (token : option string)
    (w : World) (res : Response) :
  truthyToken token = true →
  respond remote "GET" (API_BASE_URL ++ "/agendamentos")%string = Some res →
  res_status res = 401 →
  ∃ w', fetchAgendamentos remote token w = (Normal (), w')
        ∧ count isSignOut (newCalls w w') = 1%nat
        ∧ count isErrorToast (newCalls w w') = 1%nat
        ∧ count isFetch (newCalls w w') = 1%nat
        ∧ store w' = store w
        ∧ agendamentos (dashboard w') = agendamentos (dashboard w).
Proof.
  intros Htok Hres Hst. destruct w as [σ d cs].
  unfold fetchAgendamentos. rewrite Htok. cbn [negb].
  unfold tryFinally, tryCatch, fetch, signOut, showToast, console_error, emit,
    setLoadingAgendamentos, getDashboard, setDashboard, throw,
    mbind, mret, M_bind, M_ret.
  cbn [store dashboard calls]. rewrite Hres.
  unfold res_ok. rewrite Hst. cbn [Z.leb Z.compare Pos.compare Pos.compare_cont andb Z.eqb Pos.eqb].
  destruct (signOutResolves remote); cbn [store dashboard calls agendamentos];
    eexists; (split; [reflexivity|]);
    rewrite <- !app_assoc, newCalls_app; by cbn.
Qed.

Lemma fetchAgendamentos_401_witness :
  truthyToken (Some "jwt") = true
  ∧ respond (api401 false) "GET" (API_BASE_URL ++ "/agendamentos")%string
    = Some (mkResponse 401 None)
  ∧ res_status (mkResponse 401 None) = 401
  ∧ ∃ w', fetchAgendamentos (api401 false) (Some "jwt") (mundo [ana] 3) = (Normal (), w')
          ∧ count isSignOut (newCalls (mundo [ana] 3) w') = 1%nat
          ∧ count isErrorToast (newCalls (mundo [ana] 3) w') = 1%nat
          ∧ count isFetch (newCalls (mundo [ana] 3) w') = 1%nat
          ∧ store w' = store (mundo [ana] 3)
          ∧ agendamentos (dashboard w') = agendamentos (dashboard (mundo [ana] 3)).
Proof.
  split; [vm_compute; reflexivity|]. split; [vm_compute; reflexivity|].
  split; [vm_compute; reflexivity|].
  apply (fetchAgendamentos_401 (api401 false) (Some "jwt") (mundo [ana] 3)
           (mkResponse 401 None));
    vm_compute; reflexivity.
Defined.

(** C9, as the specification has it, fails: without a session token the
    handler returns before it looks at the form, and an empty name raises no
    warning. *)
Lemma submit_without_token_counterexample :
  missingField formSemNome = true
  ∧ ∃ w', handleAgendamentoSubmit (api401 true) None formSemNome (mundo [ana] 3)
          = (Normal (), w')
          ∧ ∀ m, ¬ In (CToast m warning) (newCalls (mundo [ana] 3) w').
Proof.
  split; [vm_compute; reflexivity|]. exists (mundo [ana] 3).
  split; [vm_compute; reflexivity|].
  intros m. rewrite newCalls_same. by intros [].
Qed.

(** C9, amended. The create handler sends a request only when a session
    token is present and name, phone, date and time are all non-empty; with a
    token and one of the four empty it sends nothing, shows one warning and
    leaves the state as it was; without a token it does nothing at all. *)
Theorem handleAgendamentoSubmit_guards (remote : Remote) (token : option string)
    (dataToSend : Form.entries) (w : World) :
  let w' := (handleAgendamentoSubmit remote token dataToSend w).2 in
  (count isFetch (newCalls w w') ≠ 0%nat →
     truthyToken token = true ∧ missingField dataToSend = false)
  ∧ (truthyToken token = true → missingField dataToSend = true →
       (handleAgendamentoSubmit remote token dataToSend w).1 = Normal ()
       ∧ newCalls w w' = [CToast "Preencha todos os campos obrigatórios" warning]
       ∧ store w' = store w
       ∧ dashboard w' = dashboard w)
  ∧ (truthyToken token = false →
       handleAgendamentoSubmit remote token dataToSend w = (Normal (), w)).
Proof.
  cbv zeta. unfold handleAgendamentoSubmit.
  destruct (truthyToken token) eqn:Htok; cbn [negb].
  - destruct (missingField dataToSend) eqn:Hmiss.
    + destruct w as [σ d cs].
      unfold showToast, emit. cbn [fst snd store dashboard calls].
      rewrite newCalls_app. cbn. repeat split; done.
    + repeat split; done.
  - unfold mret, M_ret. cbn [fst snd]. rewrite newCalls_same. cbn.
    repeat split; done.
Qed.

Lemma handleAgendamentoSubmit_guards_witness :
  truthyToken (Some "jwt") = true
  ∧ missingField formSemNome = true
  ∧ newCalls (mundo [ana] 3)
      (handleAgendamentoSubmit (api401 true) (Some "jwt") formSemNome (mundo [ana] 3)).2
    = [CToast "Preencha todos os campos obrigatórios" warning].
Proof.
  split; [vm_compute; reflexivity|]. split; [vm_compute; reflexivity|].
  apply (proj1 (proj2 (handleAgendamentoSubmit_guards (api401 true) (Some "jwt")
                         formSemNome (mundo [ana] 3))));
    vm_compute; reflexivity.
Defined.

(** With a token and the four fields filled, the first thing the create
    handler does to the outside is the [POST /agendar]. *)
Lemma handleAgendamentoSubmit_sends (remote : Remote) (token : option string)
    (dataToSend : Form.entries) (w : World) :
  truthyToken token = true →
  missingField dataToSend = false →
  ∃ rest,
    newCalls w (handleAgendamentoSubmit remote token dataToSend w).2
    = CFetch "POST" (API_BASE_URL ++ "/agendar")%string (default "" token)
        (Some dataToSend) :: rest.
Proof.
  intros Htok Hmiss. destruct w as [σ d cs].
  unfold handleAgendamentoSubmit, fetchAgendamentos. rewrite Htok, Hmiss.
  cbn [negb].
  unfold tryFinally, tryCatch, detached, fetch, json, signOut, currentTarget_reset,
    showToast, console_error, emit, setLoadingAgendamentos, setAgendamentos,
    newArray, getDashboard, setDashboard, throw, mbind, mret, M_bind, M_ret.
  cbn [store dashboard calls].
  repeat (match goal with
          | |- context [match ?x with _ => _ end] =>
              match x with
              | respond _ _ _ => destruct x
              | res_json _ => destruct x
              | res_ok _ => destruct x
              | currentTargetAlive _ => destruct x
              | signOutResolves _ => destruct x
              | (_ =? _) => destruct x
              end
          end; cbn [store dashboard calls snd]);
    rewrite <- ?app_assoc, newCalls_app; eexists; reflexivity.
Qed.

(** The machine of the create form takes a request into flight exactly when
    the handler sends one. *)
Lemma CreateForm_step_sends (token : option string)
    (inFlight : list Form.entries) (dataToSend : Form.entries) :
  CreateForm.step token inFlight (CreateForm.Submit dataToSend)
  = (if truthyToken token && negb (missingField dataToSend)
     then (inFlight ++ [dataToSend])%list else inFlight).
Proof.
  unfold CreateForm.step, CreateForm.submit_disabled, Button_disabled. cbn.
  by destruct (truthyToken token), (missingField dataToSend).
Qed.

(** ** The controls *)

(** The appointment card keeps at most one confirm or cancel call in flight,
    and its buttons are disabled for as long as one is. *)
Lemma AgendamentoCard_single_flight (token : option string)
    (evs : list AgendamentoCard.Event) :
  let st := AgendamentoCard.run token evs in
  (AgendamentoCard.inFlight st = [] ∧ AgendamentoCard.isSubmitting st = false)
  ∨ (length (AgendamentoCard.inFlight st) = 1%nat
     ∧ AgendamentoCard.button_disabled st = true).
Proof.
  cbv zeta. unfold AgendamentoCard.run.
  assert (∀ st,
    (AgendamentoCard.inFlight st = [] ∧ AgendamentoCard.isSubmitting st = false)
    ∨ (length (AgendamentoCard.inFlight st) = 1%nat
       ∧ AgendamentoCard.button_disabled st = true) →
    let st' := fold_left (AgendamentoCard.step token) evs st in
    (AgendamentoCard.inFlight st' = [] ∧ AgendamentoCard.isSubmitting st' = false)
    ∨ (length (AgendamentoCard.inFlight st') = 1%nat
       ∧ AgendamentoCard.button_disabled st' = true)) as Hinv.
  { induction evs as [|ev evs IH]; intros st Hst; [done|].
    cbn [fold_left]. apply IH.
    destruct st as [b fl], ev as [ns|]; cbn in *.
    - destruct Hst as [[-> ->] | [Hlen ->]]; cbn.
      + destruct (truthyToken token); cbn; auto.
      + auto.
    - destruct Hst as [[-> ->] | [Hlen ->]]; cbn; [auto|].
      destruct fl as [|x [|y fl]]; cbn in *; try done. auto. }
  apply Hinv. by left.
Qed.

(** C10 on the code: the submit button of the create form is never disabled,
    and two submissions of one filled form, the second before the first
    request has settled, leave two create requests in flight. *)
Theorem CreateForm_double_submit :
  CreateForm.submit_disabled = false
  ∧ CreateForm.run (Some "jwt")
      [CreateForm.Submit formCompleto; CreateForm.Submit formCompleto]
    = [formCompleto; formCompleto].
Proof. split; vm_compute; reflexivity. Qed.

(** * Further properties of the code *)

(** ** The filter and the sort, beyond the claims *)

Lemma filter_all {A : Type} (f : A → bool) (l : list A) :
  (∀ x, In x l → f x = true) → List.filter f l = l.
Proof.
  induction l as [|x l IH]; intros Hall; [done|]. simpl.
  rewrite (Hall x) by (by left). f_equal. apply IH. intros y Hy. apply Hall. by right.
Qed.

(** X1. With a status selected, every displayed record has exactly that
    status. *)
Theorem status_match (tza : Z) (Date_parse : string → Date) (now : Z)
    (s st : string) (dia : Z) (L : list Agendamento) (a : Agendamento) :
  st ≠ "" →
  In a (filtered tza Date_parse now s st dia L) →
  status a = st.
Proof.
  intros Hst [_ Ha]%In_filtered.
  apply filterCallback_true in Ha as (_ & Hs & _).
  unfold matchesStatus, truthy in Hs.
  destruct (String.eqb_spec st ""); [done|]. cbn in Hs.
  by apply String.eqb_eq.
Qed.

Lemma status_match_witness :
  "pendente" ≠ ""
  ∧ In caio (filtered brasilia (parseISO brasilia) quartaMeioDia "" "pendente" (-1)
               [ana; bea; caio])
  ∧ status caio = "pendente".
Proof.
  assert ("pendente" ≠ "") as Hne by discriminate.
  assert (In caio (filtered brasilia (parseISO brasilia) quartaMeioDia "" "pendente"
                     (-1) [ana; bea; caio])) as Hin by (vm_compute; auto).
  split; [exact Hne|]. split; [exact Hin|].
  exact (status_match brasilia (parseISO brasilia) quartaMeioDia "" "pendente" (-1)
           [ana; bea; caio] caio Hne Hin).
Defined.

(** X2. Filtering and sorting what was already filtered and sorted, with the
    same filters at the same instant, changes nothing. *)
Theorem filtered_idempotent (tza : Z) (Date_parse : string → Date) (now : Z)
    (s st : string) (dia : Z) (L : list Agendamento) :
  filtered tza Date_parse now s st dia (filtered tza Date_parse now s st dia L)
  = filtered tza Date_parse now s st dia L.
Proof.
  set (out := filtered tza Date_parse now s st dia L).
  assert (Forall (λ a, is_Some (dataAgendamento Date_parse a)) out) as Hvalid.
  { apply List.Forall_forall. intros a [_ Ha]%In_filtered.
    apply filterCallback_true in Ha as (_ & _ & Hd).
    by apply matchesDate_instant in Hd. }
  unfold filtered at 1, JSArray.filter.
  rewrite filter_all by (intros a Ha; by apply In_filtered in Ha as [_ ?]).
  symmetry. apply sort_canonical; try done.
  unfold out, filtered. apply sort_sorted. apply List.Forall_forall.
  intros a [_ Ha]%filter_In.
  apply filterCallback_true in Ha as (_ & _ & Hd).
  by apply matchesDate_instant in Hd.
Qed.

(** ** [fetchAgendamentos], outcome by outcome *)

(** Unfolds the monad of the handlers down to worlds. *)
Ltac run_handler :=
  unfold tryFinally, tryCatch, detached, fetch, json, signOut, currentTarget_reset,
    showToast, console_error, emit, setLoadingAgendamentos, setAgendamentos,
    newArray, getDashboard, setDashboard, throw, mbind, mret, M_bind, M_ret;
  cbn [store dashboard calls agendamentos filteredAgendamentos loadingAgendamentos
       diaSelecionado searchInput statusFilter fst snd].

(** X3. With a token, the list handler always returns normally, whatever the
    API and the identity provider do; it has then sent exactly one request,
    the loading flag is off, and every array that was in the store, the
    displayed one among them, is as it was. *)
Theorem fetchAgendamentos_settles (remote : Remote) (token : option string)
    (w : World) :
  truthyToken token = true →
  ∃ w', fetchAgendamentos remote token w = (Normal (), w')
        ∧ loadingAgendamentos (dashboard w') = false
        ∧ count isFetch (newCalls w w') = 1%nat
        ∧ filteredAgendamentos (dashboard w') = filteredAgendamentos (dashboard w)
        ∧ ∀ l xs, store w !! l = Some xs → store w' !! l = Some xs.
Proof.
  intros Htok. destruct w as [σ d cs].
  unfold fetchAgendamentos. rewrite Htok. cbn [negb]. run_handler.
  destruct (respond remote "GET" (API_BASE_URL ++ "/agendamentos")%string)
    as [res|]; run_handler.
  - destruct (res_ok res); run_handler.
    + destruct (res_json res) as [body|]; run_handler;
        (eexists; split; [reflexivity|]); run_handler;
        rewrite <- ?app_assoc, newCalls_app; repeat split; try done.
      intros l xs Hl. rewrite lookup_insert_ne; [done|].
      intros <-. by apply (fresh_lookup σ _ xs Hl).
    + destruct (res_status res =? 401); run_handler;
        [destruct (signOutResolves remote); run_handler|];
        (eexists; split; [reflexivity|]); run_handler;
        rewrite <- ?app_assoc, newCalls_app; repeat split; done.
  - eexists. split; [reflexivity|]. run_handler.
    rewrite <- ?app_assoc, newCalls_app. repeat split; done.
Qed.

Lemma fetchAgendamentos_settles_witness :
  truthyToken (Some "jwt") = true
  ∧ ∃ w', fetchAgendamentos (apiAnswering None) (Some "jwt") (mundo [ana] 3)
          = (Normal (), w')
          ∧ loadingAgendamentos (dashboard w') = false
          ∧ count isFetch (newCalls (mundo [ana] 3) w') = 1%nat
          ∧ filteredAgendamentos (dashboard w')
            = filteredAgendamentos (dashboard (mundo [ana] 3))
          ∧ ∀ l xs, store (mundo [ana] 3) !! l = Some xs → store w' !! l = Some xs.
Proof.
  split; [vm_compute; reflexivity|].
  apply (fetchAgendamentos_settles (apiAnswering None) (Some "jwt") (mundo [ana] 3)).
  vm_compute; reflexivity.
Defined.

(** X4. On a 2xx answer whose body decodes, the list becomes the body's
    [agendamentos], or the empty list when the body has none, in an array of
    its own; the only call made is the request: no notification. *)
Theorem fetchAgendamentos_ok (remote : Remote) (token : option string)
    (w : World) (res : Response) (body : Body) :
  truthyToken token = true →
  respond remote "GET" (API_BASE_URL ++ "/agendamentos")%string = Some res →
  res_ok res = true →
  res_json res = Some body →
  ∃ w', fetchAgendamentos remote token w = (Normal (), w')
        ∧ store w' !! agendamentos (dashboard w')
          = Some (default [] (body_agendamentos body))
        ∧ store w !! agendamentos (dashboard w') = None
        ∧ newCalls w w'
          = [CFetch "GET" (API_BASE_URL ++ "/agendamentos")%string (default "" token)
               None].
Proof.
  intros Htok Hres Hok Hjson. destruct w as [σ d cs].
  unfold fetchAgendamentos. rewrite Htok. cbn [negb]. run_handler.
  rewrite Hres. run_handler. rewrite Hok, Hjson. run_handler.
  eexists. split; [reflexivity|]. run_handler.
  rewrite newCalls_app, lookup_insert_eq. repeat split; try done.
  apply not_elem_of_dom, is_fresh.
Qed.

Lemma fetchAgendamentos_ok_witness :
  truthyToken (Some "jwt") = true
  ∧ ∃ w', fetchAgendamentos
            (apiAnswering (Some (mkResponse 200 (Some (mkBody None None)))))
            (Some "jwt") (mundo [ana] 3) = (Normal (), w')
          ∧ store w' !! agendamentos (dashboard w') = Some [].
Proof.
  split; [vm_compute; reflexivity|].
  destruct (fetchAgendamentos_ok
              (apiAnswering (Some (mkResponse 200 (Some (mkBody None None)))))
              (Some "jwt") (mundo [ana] 3)
              (mkResponse 200 (Some (mkBody None None))) (mkBody None None)
              eq_refl eq_refl eq_refl eq_refl) as (w' & Hrun & Hlist & _).
  exists w'. split; [exact Hrun | exact Hlist].
Defined.

(** X5. An answer that is neither 2xx nor 401 is dropped in silence: the
    request is the only call, no notification is shown, and the list and
    the store are as they were. *)
Theorem fetchAgendamentos_other_status (remote : Remote) (token : option string)
    (w : World) (res : Response) :
  truthyToken token = true →
  respond remote "GET" (API_BASE_URL ++ "/agendamentos")%string = Some res →
  res_ok res = false →
  res_status res ≠ 401 →
  ∃ w', fetchAgendamentos remote token w = (Normal (), w')
        ∧ newCalls w w'
          = [CFetch "GET" (API_BASE_URL ++ "/agendamentos")%string (default "" token)
               None]
        ∧ store w' = store w
        ∧ agendamentos (dashboard w') = agendamentos (dashboard w).
Proof.
  intros Htok Hres Hok Hst. destruct w as [σ d cs].
  unfold fetchAgendamentos. rewrite Htok. cbn [negb]. run_handler.
  rewrite Hres. run_handler. rewrite Hok.
  destruct (Z.eqb_spec (res_status res) 401); [done|]. run_handler.
  eexists. split; [reflexivity|]. run_handler.
  by rewrite newCalls_app.
Qed.

Lemma fetchAgendamentos_other_status_witness :
  truthyToken (Some "jwt") = true
  ∧ res_ok (mkResponse 500 None) = false
  ∧ res_status (mkResponse 500 None) ≠ 401
  ∧ ∃ w', fetchAgendamentos (apiAnswering (Some (mkResponse 500 None))) (Some "jwt")
            (mundo [ana] 3) = (Normal (), w')
          ∧ newCalls (mundo [ana] 3) w'
            = [CFetch "GET" (API_BASE_URL ++ "/agendamentos")%string "jwt" None]
          ∧ store w' = store (mundo [ana] 3)
          ∧ agendamentos (dashboard w') = agendamentos (dashboard (mundo [ana] 3)).
Proof.
  assert (res_status (mkResponse 500 None) ≠ 401) as Hne by discriminate.
  split; [vm_compute; reflexivity|]. split; [vm_compute; reflexivity|].
  split; [exact Hne|].
  exact (fetchAgendamentos_other_status (apiAnswering (Some (mkResponse 500 None)))
           (Some "jwt") (mundo [ana] 3) (mkResponse 500 None)
           eq_refl eq_refl eq_refl Hne).
Defined.

(** X6. When the request fails on the network, or a 2xx body does not
    decode, the handler writes one line to the console and shows one error
    notification; the list and the store are as they were. *)
Theorem fetchAgendamentos_failure (remote : Remote) (token : option string)
    (w : World) :
  truthyToken token = true →
  respond remote "GET" (API_BASE_URL ++ "/agendamentos")%string = None
  ∨ (∃ res, respond remote "GET" (API_BASE_URL ++ "/agendamentos")%string = Some res
            ∧ res_ok res = true ∧ res_json res = None) →
  ∃ w', fetchAgendamentos remote token w = (Normal (), w')
        ∧ newCalls w w'
          = [CFetch "GET" (API_BASE_URL ++ "/agendamentos")%string (default "" token)
               None;
             CConsoleError "Failed to fetch agendamentos";
             CToast "Erro ao carregar agendamentos." error]
        ∧ store w' = store w
        ∧ agendamentos (dashboard w') = agendamentos (dashboard w).
Proof.
  intros Htok Hfail. destruct w as [σ d cs].
  unfold fetchAgendamentos. rewrite Htok. cbn [negb]. run_handler.
  destruct Hfail as [Hres | (res & Hres & Hok & Hjson)]; rewrite Hres; run_handler;
    [|rewrite Hok, Hjson; run_handler];
    (eexists; split; [reflexivity|]); run_handler;
    by rewrite <- !app_assoc, newCalls_app.
Qed.

Lemma fetchAgendamentos_failure_witness :
  truthyToken (Some "jwt") = true
  ∧ ∃ w', fetchAgendamentos (apiAnswering (Some (mkResponse 200 None))) (Some "jwt")
            (mundo [ana] 3) = (Normal (), w')
          ∧ newCalls (mundo [ana] 3) w'
            = [CFetch "GET" (API_BASE_URL ++ "/agendamentos")%string "jwt" None;
               CConsoleError "Failed to fetch agendamentos";
               CToast "Erro ao carregar agendamentos." error]
          ∧ store w' = store (mundo [ana] 3)
          ∧ agendamentos (dashboard w') = agendamentos (dashboard (mundo [ana] 3)).
Proof.
  split; [vm_compute; reflexivity|].
  apply (fetchAgendamentos_failure (apiAnswering (Some (mkResponse 200 None)))
           (Some "jwt") (mundo [ana] 3) eq_refl).
  right. exists (mkResponse 200 None). repeat split; vm_compute; reflexivity.
Defined.

(** X7. The list handler signs the user out only after a 401: if a sign-out
    is among its calls, a token was present and the list endpoint answered
    401. *)
Theorem fetchAgendamentos_signOut_only_401 (remote : Remote)
    (token : option string) (w : World) :
  In CSignOut (newCalls w (fetchAgendamentos remote token w).2) →
  truthyToken token = true
  ∧ ∃ res, respond remote "GET" (API_BASE_URL ++ "/agendamentos")%string = Some res
           ∧ res_status res = 401.
Proof.
  destruct w as [σ d cs]. unfold fetchAgendamentos.
  destruct (truthyToken token); cbn [negb]; run_handler.
  2: { rewrite newCalls_same. by intros []. }
  destruct (respond remote "GET" (API_BASE_URL ++ "/agendamentos")%string)
    as [res|]; run_handler.
  - destruct (res_ok res); run_handler.
    + destruct (res_json res) as [body|]; run_handler;
        rewrite <- ?app_assoc, newCalls_app; cbn; intros Hin;
        repeat (destruct Hin as [Hin|Hin]; try done).
    + destruct (Z.eqb_spec (res_status res) 401) as [H401|Hne]; run_handler.
      * intros _. split; [done|]. by exists res.
      * rewrite newCalls_app. cbn. intros Hin.
        repeat (destruct Hin as [Hin|Hin]; try done).
  - rewrite <- ?app_assoc, newCalls_app. cbn. intros Hin.
    repeat (destruct Hin as [Hin|Hin]; try done).
Qed.

Lemma fetchAgendamentos_signOut_only_401_witness :
  In CSignOut
    (newCalls (mundo [ana] 3)
       (fetchAgendamentos (api401 true) (Some "jwt") (mundo [ana] 3)).2)
  ∧ ∃ res, respond (api401 true) "GET" (API_BASE_URL ++ "/agendamentos")%string
           = Some res
           ∧ res_status res = 401.
Proof.
  assert (In CSignOut
            (newCalls (mundo [ana] 3)
               (fetchAgendamentos (api401 true) (Some "jwt") (mundo [ana] 3)).2))
    as Hin by (vm_compute; auto).
  split; [exact Hin|].
  exact (proj2 (fetchAgendamentos_signOut_only_401 (api401 true) (Some "jwt")
                  (mundo [ana] 3) Hin)).
Defined.

(** ** [handleAgendamentoSubmit], outcome by outcome *)

(** X8. The create handler always returns normally; it sends at most one
    [POST] and at most two requests in all (the second being the refresh),
    and every array that was in the store is as it was. *)
Theorem handleAgendamentoSubmit_settles (remote : Remote) (token : option string)
    (dataToSend : Form.entries) (w : World) :
  ∃ w', handleAgendamentoSubmit remote token dataToSend w = (Normal (), w')
        ∧ (count isPost (newCalls w w') <= 1)%nat
        ∧ (count isFetch (newCalls w w') <= 2)%nat
        ∧ ∀ l xs, store w !! l = Some xs → store w' !! l = Some xs.
Proof.
  destruct w as [σ d cs]. unfold handleAgendamentoSubmit, fetchAgendamentos.
  destruct (truthyToken token); cbn [negb].
  2: { exists (mkWorld σ d cs). rewrite newCalls_same. cbn. repeat split; [lia..|done]. }
  destruct (missingField dataToSend).
  { run_handler. eexists. split; [reflexivity|]. rewrite newCalls_app. cbn.
    repeat split; [lia..|done]. }
  run_handler.
  repeat (match goal with
          | |- context [match ?x with _ => _ end] =>
              match x with
              | respond _ _ _ => destruct x
              | res_json _ => destruct x
              | res_ok _ => destruct x
              | currentTargetAlive _ => destruct x
              | signOutResolves _ => destruct x
              | (_ =? _) => destruct x
              end
          end; run_handler);
    (eexists; split; [reflexivity|]); run_handler;
    rewrite <- ?app_assoc, newCalls_app; cbn;
    (repeat split; [lia..|]); try done.
  intros l xs Hl. rewrite lookup_insert_ne; [done|].
  intros <-. by apply (fresh_lookup σ _ xs Hl).
Qed.

Lemma handleAgendamentoSubmit_settles_witness :
  ∃ w', handleAgendamentoSubmit
          (apiAnswering (Some (mkResponse 200 (Some (mkBody (Some [bea]) None)))))
          (Some "jwt") formCompleto (mundo [ana] 3) = (Normal (), w')
        ∧ store w' !! 2%nat = Some [ana].
Proof.
  destruct (handleAgendamentoSubmit_settles
              (apiAnswering (Some (mkResponse 200 (Some (mkBody (Some [bea]) None)))))
              (Some "jwt") formCompleto (mundo [ana] 3))
    as (w' & Hrun & _ & _ & Hkeep).
  exists w'. split; [exact Hrun|]. apply Hkeep. vm_compute. reflexivity.
Defined.

(** X9. When the API refuses the create (an answer that is not 2xx, with a
    body that decodes), the handler shows the body's [msg] as an error, or
    "Erro ao agendar" when there is none or it is empty; it does not refresh
    the list, and the state is as it was. *)
Theorem handleAgendamentoSubmit_refused (remote : Remote) (token : option string)
    (dataToSend : Form.entries) (w : World) (res : Response) (body : Body) :
  truthyToken token = true →
  missingField dataToSend = false →
  respond remote "POST" (API_BASE_URL ++ "/agendar")%string = Some res →
  res_ok res = false →
  res_json res = Some body →
  ∃ w' msg,
    handleAgendamentoSubmit remote token dataToSend w = (Normal (), w')
    ∧ newCalls w w'
      = [CFetch "POST" (API_BASE_URL ++ "/agendar")%string (default "" token)
           (Some dataToSend);
         CToast msg error]
    ∧ (∀ m, body_msg body = Some m → m ≠ "" → msg = m)
    ∧ (body_msg body = None ∨ body_msg body = Some "" → msg = "Erro ao agendar")
    ∧ store w' = store w
    ∧ dashboard w' = dashboard w.
Proof.
  intros Htok Hmiss Hres Hok Hjson. destruct w as [σ d cs].
  unfold handleAgendamentoSubmit. rewrite Htok, Hmiss. cbn [negb]. run_handler.
  rewrite Hres. run_handler. rewrite Hjson. run_handler. rewrite Hok. run_handler.
  eexists _, _. split; [reflexivity|]. run_handler.
  rewrite <- !app_assoc, newCalls_app. split; [reflexivity|].
  split; [|split; [|done]].
  - intros m -> Hm. unfold truthy. by destruct (String.eqb_spec m "").
  - by intros [-> | ->].
Qed.

Lemma handleAgendamentoSubmit_refused_witness :
  truthyToken (Some "jwt") = true
  ∧ missingField formCompleto = false
  ∧ ∃ w',
      handleAgendamentoSubmit
        (apiAnswering (Some (mkResponse 409 (Some (mkBody None (Some "Horário ocupado"))))))
        (Some "jwt") formCompleto (mundo [ana] 3) = (Normal (), w')
      ∧ newCalls (mundo [ana] 3) w'
        = [CFetch "POST" (API_BASE_URL ++ "/agendar")%string "jwt" (Some formCompleto);
           CToast "Horário ocupado" error].
Proof.
  split; [vm_compute; reflexivity|]. split; [vm_compute; reflexivity|].
  destruct (handleAgendamentoSubmit_refused
              (apiAnswering
                 (Some (mkResponse 409 (Some (mkBody None (Some "Horário ocupado"))))))
              (Some "jwt") formCompleto (mundo [ana] 3)
              (mkResponse 409 (Some (mkBody None (Some "Horário ocupado"))))
              (mkBody None (Some "Horário ocupado"))
              eq_refl eq_refl eq_refl eq_refl eq_refl)
    as (w' & msg & Hrun & Hcalls & Hmsg & _).
  exists w'. split; [exact Hrun|].
  rewrite Hcalls. do 3 f_equal. apply Hmsg; [reflexivity | discriminate].
Defined.



(** X11. When the create request fails on the network, or the answer's body
    does not decode (whatever its status), the handler shows the connection
    error and nothing else: no refresh, state as it was. *)
Theorem handleAgendamentoSubmit_failure (remote : Remote) (token : option string)
    (dataToSend : Form.entries) (w : World) :
  truthyToken token = true →
  missingField dataToSend = false →
  respond remote "POST" (API_BASE_URL ++ "/agendar")%string = None
  ∨ (∃ res, respond remote "POST" (API_BASE_URL ++ "/agendar")%string = Some res
            ∧ res_json res = None) →
  ∃ w', handleAgendamentoSubmit remote token dataToSend w = (Normal (), w')
        ∧ newCalls w w'
          = [CFetch "POST" (API_BASE_URL ++ "/agendar")%string (default "" token)
               (Some dataToSend);
             CToast "Erro de conexão ao agendar" error]
        ∧ store w' = store w
        ∧ dashboard w' = dashboard w.
Proof.
  intros Htok Hmiss Hfail. destruct w as [σ d cs].
  unfold handleAgendamentoSubmit. rewrite Htok, Hmiss. cbn [negb]. run_handler.
  destruct Hfail as [Hres | (res & Hres & Hjson)]; rewrite Hres; run_handler;
    [|rewrite Hjson; run_handler];
    (eexists; split; [reflexivity|]); run_handler;
    by rewrite <- !app_assoc, newCalls_app.
Qed.

Lemma handleAgendamentoSubmit_failure_witness :
  truthyToken (Some "jwt") = true
  ∧ missingField formCompleto = false
  ∧ ∃ w', handleAgendamentoSubmit (apiAnswering (Some (mkResponse 201 None)))
            (Some "jwt") formCompleto (mundo [ana] 3) = (Normal (), w')
          ∧ newCalls (mundo [ana] 3) w'
            = [CFetch "POST" (API_BASE_URL ++ "/agendar")%string "jwt" (Some formCompleto);
               CToast "Erro de conexão ao agendar" error]
          ∧ store w' = store (mundo [ana] 3)
          ∧ dashboard w' = dashboard (mundo [ana] 3).
Proof.
  split; [vm_compute; reflexivity|]. split; [vm_compute; reflexivity|].
  apply (handleAgendamentoSubmit_failure (apiAnswering (Some (mkResponse 201 None)))
           (Some "jwt") formCompleto (mundo [ana] 3) eq_refl eq_refl).
  right. exists (mkResponse 201 None). split; vm_compute; reflexivity.
Defined.

(** X12. When the API accepts the create but the form can no longer be
    reached from the event after the [await], the reset throws inside the
    [try]: the success notification is followed by the connection error, and
    the list is not refreshed. *)
Theorem handleAgendamentoSubmit_form_gone (remote : Remote) (token : option string)
    (dataToSend : Form.entries) (w : World) (res : Response) (body : Body) :
  truthyToken token = true →
  missingField dataToSend = false →
  respond remote "POST" (API_BASE_URL ++ "/agendar")%string = Some res →
  res_ok res = true →
  res_json res = Some body →
  currentTargetAlive remote = false →
  ∃ w', handleAgendamentoSubmit remote token dataToSend w = (Normal (), w')
        ∧ newCalls w w'
          = [CFetch "POST" (API_BASE_URL ++ "/agendar")%string (default "" token)
               (Some dataToSend);
             CToast "Agendado com sucesso!" success;
             CToast "Erro de conexão ao agendar" error]
        ∧ store w' = store w
        ∧ dashboard w' = dashboard w.
Proof.
  intros Htok Hmiss Hres Hok Hjson Halive. destruct w as [σ d cs].
  unfold handleAgendamentoSubmit. rewrite Htok, Hmiss. cbn [negb]. run_handler.
  rewrite Hres. run_handler. rewrite Hjson. run_handler. rewrite Hok, Halive.
  run_handler. eexists. split; [reflexivity|]. run_handler.
  by rewrite <- !app_assoc, newCalls_app.
Qed.

Lemma handleAgendamentoSubmit_form_gone_witness :
  truthyToken (Some "jwt") = true
  ∧ missingField formCompleto = false
  ∧ ∃ w', handleAgendamentoSubmit
            (apiFormGone (Some (mkResponse 200 (Some (mkBody None None)))))
            (Some "jwt") formCompleto (mundo [ana] 3) = (Normal (), w')
          ∧ newCalls (mundo [ana] 3) w'
            = [CFetch "POST" (API_BASE_URL ++ "/agendar")%string "jwt" (Some formCompleto);
               CToast "Agendado com sucesso!" success;
               CToast "Erro de conexão ao agendar" error]
          ∧ store w' = store (mundo [ana] 3)
          ∧ dashboard w' = dashboard (mundo [ana] 3).
Proof.
  split; [vm_compute; reflexivity|]. split; [vm_compute; reflexivity|].
  exact (handleAgendamentoSubmit_form_gone
           (apiFormGone (Some (mkResponse 200 (Some (mkBody None None)))))
           (Some "jwt") formCompleto (mundo [ana] 3)
           (mkResponse 200 (Some (mkBody None None))) (mkBody None None)
           eq_refl eq_refl eq_refl eq_refl eq_refl eq_refl).
Defined.

(** ** [formatData] *)

Lemma String_split_without (sep : ascii) (p : string) :
  without sep p = true → String_split sep p = [p].
Proof.
  induction p as [|c p IH]; [done|]. cbn [without String_split].
  intros [Hc Hp]%andb_true_iff. apply negb_true_iff in Hc. rewrite Hc.
  by rewrite IH.
Qed.

Lemma String_split_app (sep : ascii) (p rest : string) :
  without sep p = true →
  String_split sep (p ++ String sep rest)%string = p :: String_split sep rest.
Proof.
  induction p as [|c p IH]; intros Hp.
  - rewrite append_nil. cbn [String_split]. by rewrite Ascii.eqb_refl.
  - cbn [without] in Hp. apply andb_true_iff in Hp as [Hc Hp].
    apply negb_true_iff in Hc.
    rewrite append_cons. cbn [String_split]. rewrite Hc. by rewrite IH.
Qed.

Lemma dash_app (s : string) : ("-" ++ s)%string = String "-" s.
Proof. reflexivity. Qed.

Lemma truthy_app_sep (p rest : string) (sep : ascii) :
  truthy (p ++ String sep rest)%string = true.
Proof. destruct p; [rewrite append_nil | rewrite append_cons]; done. Qed.

(** X13. A date written year-month-day is shown day/month/year; whatever
    follows a third dash is dropped. *)
Theorem formatData_date (y m d rest : string) :
  without "-" y = true →
  without "-" m = true →
  without "-" d = true →
  formatData (y ++ "-" ++ m ++ "-" ++ d)%string = (d ++ "/" ++ m ++ "/" ++ y)%string
  ∧ formatData (y ++ "-" ++ m ++ "-" ++ d ++ "-" ++ rest)%string
    = (d ++ "/" ++ m ++ "/" ++ y)%string.
Proof.
  intros Hy Hm Hd. unfold formatData. rewrite !dash_app.
  rewrite !truthy_app_sep. cbn [negb].
  split.
  - rewrite (String_split_app "-" y) by done.
    rewrite (String_split_app "-" m) by done.
    by rewrite (String_split_without "-" d).
  - rewrite (String_split_app "-" y) by done.
    rewrite (String_split_app "-" m) by done.
    by rewrite (String_split_app "-" d).
Qed.

Lemma formatData_date_witness :
  without "-" "2025" = true
  ∧ without "-" "01" = true
  ∧ without "-" "10" = true
  ∧ formatData "2025-01-10" = "10/01/2025"
  ∧ formatData "2025-01-10-x-y" = "10/01/2025".
Proof.
  split; [vm_compute; reflexivity|]. split; [vm_compute; reflexivity|].
  split; [vm_compute; reflexivity|].
  exact (formatData_date "2025" "01" "10" "x-y" eq_refl eq_refl eq_refl).
Defined.

(** X14. The empty date is shown as the empty string; a date with fewer than
    three pieces is shown with the word undefined in place of each piece that
    is missing. *)
Theorem formatData_short (y m : string) :
  without "-" y = true →
  without "-" m = true →
  formatData "" = ""
  ∧ (y ≠ "" → formatData y = ("undefined/undefined/" ++ y)%string)
  ∧ formatData (y ++ "-" ++ m)%string = ("undefined/" ++ m ++ "/" ++ y)%string.
Proof.
  intros Hy Hm. split; [done|]. split.
  - intros Hne. unfold formatData, truthy.
    destruct (String.eqb_spec y ""); [done|]. cbn [negb].
    by rewrite (String_split_without "-" y).
  - unfold formatData. rewrite dash_app.
    rewrite truthy_app_sep. cbn [negb].
    rewrite (String_split_app "-" y) by done.
    by rewrite (String_split_without "-" m).
Qed.

Lemma formatData_short_witness :
  without "-" "2025" = true
  ∧ without "-" "01" = true
  ∧ formatData "2025" = "undefined/undefined/2025"
  ∧ formatData "2025-01" = "undefined/01/2025".
Proof.
  split; [vm_compute; reflexivity|]. split; [vm_compute; reflexivity|].
  destruct (formatData_short "2025" "01" eq_refl eq_refl) as (_ & Hone & Htwo).
  split; [apply Hone; discriminate | exact Htwo].
Defined.

(** ** [AuthProvider] and [MainApp] *)

Lemma provider_snoc (delivered : list (option Supabase.Session))
    (s : option Supabase.Session) :
  Auth.provider (delivered ++ [s])
  = Auth.mkAuthContext s (Supabase.user <$> s) false (Supabase.access_token <$> s).
Proof. unfold Auth.provider. by rewrite fold_left_app. Qed.

(** X15. Once a session, or its absence, has been delivered to the provider,
    the context is never loading again and always agrees with the last
    delivery: user and token are those of the session, and are absent exactly
    when the session is. *)
Theorem AuthProvider_follows_session (delivered : list (option Supabase.Session)) :
  delivered ≠ [] →
  let ctx := Auth.provider delivered in
  Auth.loading ctx = false
  ∧ last delivered = Some (Auth.session ctx)
  ∧ Auth.user ctx = Supabase.user <$> Auth.session ctx
  ∧ Auth.token ctx = Supabase.access_token <$> Auth.session ctx.
Proof.
  destruct delivered as [|s0 rest] using rev_ind; [done|]. intros _.
  cbv zeta. rewrite provider_snoc, last_snoc. by cbn.
Qed.

Lemma AuthProvider_follows_session_witness :
  [None; Some sessaoDaAna] ≠ []
  ∧ Auth.token (Auth.provider [None; Some sessaoDaAna]) = Some "jwt"
  ∧ Auth.loading (Auth.provider [None; Some sessaoDaAna]) = false.
Proof.
  assert ([None; Some sessaoDaAna] ≠ []) as Hne by discriminate.
  destruct (AuthProvider_follows_session [None; Some sessaoDaAna] Hne)
    as (Hload & _ & _ & Htok).
  split; [exact Hne|]. split; [|exact Hload].
  rewrite Htok. vm_compute. reflexivity.
Defined.

(** X16. [MainApp] shows the loading screen exactly until the first
    delivery, and the login screen exactly when the last delivery was the
    absence of a session; whenever it shows the Dashboard, the context holds
    a session together with that session's access token. *)
Theorem MainApp_screens (delivered : list (option Supabase.Session)) :
  (MainApp (Auth.provider delivered) = Carregando ↔ delivered = [])
  ∧ (MainApp (Auth.provider delivered) = DashboardScreen →
     ∃ s, Auth.session (Auth.provider delivered) = Some s
          ∧ Auth.token (Auth.provider delivered) = Some (Supabase.access_token s))
  ∧ (MainApp (Auth.provider delivered) = LoginScreenScreen ↔
     last delivered = Some None).
Proof.
  destruct delivered as [|s0 rest _] using rev_ind.
  - cbn. repeat split; try done.
  - rewrite provider_snoc, last_snoc. unfold MainApp. cbn.
    assert ((rest ++ [s0])%list ≠ []) as Hne by (by intros [_ ?]%app_eq_nil).
    destruct s0 as [s|].
    + split; [by split|]. split; [intros _; by exists s | by split].
    + split; [by split|]. split; [done | by split].
Qed.

Lemma MainApp_screens_witness :
  MainApp (Auth.provider [None; Some sessaoDaAna]) = DashboardScreen
  ∧ ∃ s, Auth.session (Auth.provider [None; Some sessaoDaAna]) = Some s
         ∧ Auth.token (Auth.provider [None; Some sessaoDaAna])
           = Some (Supabase.access_token s).
Proof.
  assert (MainApp (Auth.provider [None; Some sessaoDaAna]) = DashboardScreen)
    as Hscreen by (vm_compute; reflexivity).
  split; [exact Hscreen|].
  exact (proj1 (proj2 (MainApp_screens [None; Some sessaoDaAna])) Hscreen).
Defined.

(** ** [LoginScreen] *)

Lemma fold_left_invariant {S E : Type} (f : S → E → S) (P : S → Prop)
    (evs : list E) (s : S) :
  P s → (∀ s' e, P s' → P (f s' e)) → P (fold_left f evs s).
Proof.
  intros Hs Hstep. revert s Hs.
  induction evs as [|e evs IH]; intros s Hs; [done|].
  cbn. apply IH. by apply Hstep.
Qed.

(** X17. The accepted-terms flag and the browser's storage never part: from
    whatever the storage held at mount, after any sequence of clicks and
    settled sign-ins the flag is set exactly when the storage holds
    ['true'] under ['termsAccepted']. *)
Theorem LoginScreen_terms_persisted (storage : gmap string string)
    (evs : list LoginScreen.Event) :
  let w := LoginScreen.run storage evs in
  LoginScreen.termsAccepted w = true
  ↔ LoginScreen.localStorage w !! "termsAccepted" = Some "true".
Proof.
  cbv zeta. unfold LoginScreen.run.
  apply (fold_left_invariant LoginScreen.step
           (λ w, LoginScreen.termsAccepted w = true
                 ↔ LoginScreen.localStorage w !! "termsAccepted" = Some "true")).
  - cbn. unfold LoginScreen.storedAccepted.
    destruct (storage !! "termsAccepted") as [v|]; [|done].
    destruct (String.eqb_spec v "true") as [->|Hne]; [done|].
    split; [done | congruence].
  - intros w ev Hw. destruct w as [l t m σ cs n], ev as [|r| | | |]; cbn in *.
    + unfold LoginScreen.login_disabled, Button_disabled. cbn.
      destruct l; [done|]. unfold LoginScreen.handleLogin. cbn.
      by destruct t.
    + destruct n; [done|]. unfold LoginScreen.handleLogin_settled. cbn.
      by destruct r.
    + destruct t; cbn; [|done]. by rewrite lookup_delete_eq.
    + done.
    + destruct m; [|done]. cbn. by rewrite lookup_insert_eq.
    + by destruct m.
Qed.

(** X18. Nothing but the accept button of the terms modal accepts the
    terms: from a storage without the flag, a sequence of events without
    [Aceitar] leaves the terms unaccepted and sends no sign-in. *)
Theorem LoginScreen_needs_accept (storage : gmap string string)
    (evs : list LoginScreen.Event) :
  LoginScreen.storedAccepted storage = false →
  forallb (λ ev, negb (LoginScreen.isAceitar ev)) evs = true →
  let w := LoginScreen.run storage evs in
  LoginScreen.termsAccepted w = false
  ∧ List.filter LoginScreen.isSignIn (LoginScreen.calls w) = [].
Proof.
  intros Hst Hevs. cbv zeta. unfold LoginScreen.run.
  assert (LoginScreen.termsAccepted (LoginScreen.mount storage) = false
          ∧ List.filter LoginScreen.isSignIn
              (LoginScreen.calls (LoginScreen.mount storage)) = []) as Hw
    by done.
  revert Hw. generalize (LoginScreen.mount storage).
  induction evs as [|ev evs IH]; intros w Hw; [done|].
  cbn [forallb] in Hevs. apply andb_true_iff in Hevs as [Hev Hevs].
  cbn [fold_left]. apply IH; [done|]. clear IH Hevs.
  destruct w as [l t m σ cs n], Hw as [Ht Hcs]. cbn in Ht, Hcs. subst t.
  destruct ev as [|r| | | |]; cbn in *; try done.
  - unfold LoginScreen.login_disabled, Button_disabled. cbn.
    destruct l; [done|]. unfold LoginScreen.handleLogin. cbn.
    by rewrite List.filter_app, Hcs.
  - destruct n; [done|]. unfold LoginScreen.handleLogin_settled. cbn.
    destruct r; cbn; [done|]. by rewrite !List.filter_app, Hcs.
  - by destruct m.
Qed.

Lemma LoginScreen_needs_accept_witness :
  LoginScreen.storedAccepted ∅ = false
  ∧ LoginScreen.termsAccepted
      (LoginScreen.run ∅
         [LoginScreen.ClickCheckbox; LoginScreen.Recusar; LoginScreen.ClickLogin])
    = false
  ∧ List.filter LoginScreen.isSignIn
      (LoginScreen.calls
         (LoginScreen.run ∅
            [LoginScreen.ClickCheckbox; LoginScreen.Recusar; LoginScreen.ClickLogin]))
    = [].
Proof.
  split; [vm_compute; reflexivity|].
  apply (LoginScreen_needs_accept ∅
           [LoginScreen.ClickCheckbox; LoginScreen.Recusar; LoginScreen.ClickLogin]);
    vm_compute; reflexivity.
Defined.

Lemma LoginScreen_flight_invariant (storage : gmap string string)
    (evs : list LoginScreen.Event) :
  let w := LoginScreen.run storage evs in
  (LoginScreen.inFlight w <= 1)%nat
  ∧ (LoginScreen.inFlight w = 1%nat → LoginScreen.login_disabled w = true).
Proof.
  cbv zeta. unfold LoginScreen.run.
  apply (fold_left_invariant LoginScreen.step
           (λ w, (LoginScreen.inFlight w <= 1)%nat
                 ∧ (LoginScreen.inFlight w = 1%nat
                    → LoginScreen.login_disabled w = true))).
  - cbn. split; [lia | done].
  - intros w ev [Hle Hdis]. destruct w as [l t m σ cs n].
    unfold LoginScreen.login_disabled, Button_disabled in *. cbn in *.
    destruct ev as [|r| | | |]; cbn.
    + destruct l; cbn; [done|]. unfold LoginScreen.handleLogin. cbn.
      destruct t; cbn; [|done].
      assert (n = 0%nat) as -> by (destruct n as [|[|n]]; [done| |lia];
                                    by specialize (Hdis eq_refl)).
      done.
    + destruct n as [|[|n]]; cbn; [done| |lia].
      unfold LoginScreen.handleLogin_settled. cbn.
      destruct r; cbn; split; (lia || done).
    + by destruct t.
    + done.
    + by destruct m.
    + by destruct m.
Qed.

(** X19. The login screen keeps at most one sign-in in flight, and its
    button is disabled for as long as one is; a click on it then changes
    nothing. *)
Theorem LoginScreen_single_flight (storage : gmap string string)
    (evs : list LoginScreen.Event) :
  let w := LoginScreen.run storage evs in
  (LoginScreen.inFlight w <= 1)%nat
  ∧ (LoginScreen.inFlight w = 1%nat →
     LoginScreen.login_disabled w = true
     ∧ LoginScreen.step w LoginScreen.ClickLogin = w).
Proof.
  cbv zeta. destruct (LoginScreen_flight_invariant storage evs) as [Hle Hdis].
  cbv zeta in Hle, Hdis. split; [exact Hle|]. intros Hone.
  specialize (Hdis Hone). split; [exact Hdis|].
  cbn [LoginScreen.step]. by rewrite Hdis.
Qed.

Lemma LoginScreen_single_flight_witness :
  LoginScreen.inFlight
    (LoginScreen.run {["termsAccepted" := "true"]} [LoginScreen.ClickLogin]) = 1%nat
  ∧ LoginScreen.step
      (LoginScreen.run {["termsAccepted" := "true"]} [LoginScreen.ClickLogin])
      LoginScreen.ClickLogin
    = LoginScreen.run {["termsAccepted" := "true"]} [LoginScreen.ClickLogin].
Proof.
  assert (LoginScreen.inFlight
            (LoginScreen.run {["termsAccepted" := "true"]} [LoginScreen.ClickLogin])
          = 1%nat) as Hone by (vm_compute; reflexivity).
  split; [exact Hone|].
  exact (proj2 (proj2 (LoginScreen_single_flight {["termsAccepted" := "true"]}
                         [LoginScreen.ClickLogin]) Hone)).
Defined.

(** X20. Once a sign-in has resolved, the login button stays disabled and
    no further sign-in is sent, whatever is clicked next. *)
Theorem LoginScreen_resolved_for_good (storage : gmap string string)
    (before after : list LoginScreen.Event) :
  let w1 := LoginScreen.run storage before in
  LoginScreen.inFlight w1 = 1%nat →
  let w2 := fold_left LoginScreen.step (LoginScreen.SignInSettled true :: after) w1 in
  LoginScreen.login_disabled w2 = true
  ∧ List.filter LoginScreen.isSignIn (LoginScreen.calls w2)
    = List.filter LoginScreen.isSignIn (LoginScreen.calls w1).
Proof.
  cbv zeta. intros Hfl.
  destruct (LoginScreen_flight_invariant storage before) as [_ Hdis].
  specialize (Hdis Hfl). cbv zeta in Hdis.
  set (w1 := LoginScreen.run storage before) in *.
  cbn [fold_left LoginScreen.step]. rewrite Hfl. cbn [Nat.eqb].
  set (sent := List.filter LoginScreen.isSignIn (LoginScreen.calls w1)).
  cut (let w := fold_left LoginScreen.step after
                  (LoginScreen.handleLogin_settled true w1) in
       LoginScreen.login_disabled w = true
       ∧ List.filter LoginScreen.isSignIn (LoginScreen.calls w) = sent
       ∧ LoginScreen.inFlight w = 0%nat);
    [by intros (? & ? & _)|].
  cbv zeta.
  apply (fold_left_invariant LoginScreen.step
           (λ w, LoginScreen.login_disabled w = true
                 ∧ List.filter LoginScreen.isSignIn (LoginScreen.calls w) = sent
                 ∧ LoginScreen.inFlight w = 0%nat)).
  - destruct w1 as [l t m σ cs n].
    unfold LoginScreen.login_disabled, Button_disabled in *. cbn in *.
    by subst n.
  - intros w ev (Hd & Hs & Hn). destruct w as [l t m σ cs n].
    unfold LoginScreen.login_disabled, Button_disabled in *. cbn in *.
    subst l n. destruct ev as [|r| | | |]; cbn; try done.
    + by destruct t.
    + destruct m; cbn; [|done].
      rewrite List.filter_app, Hs. cbn. by rewrite app_nil_r.
    + by destruct m.
Qed.

Lemma LoginScreen_resolved_for_good_witness :
  LoginScreen.inFlight
    (LoginScreen.run {["termsAccepted" := "true"]} [LoginScreen.ClickLogin]) = 1%nat
  ∧ List.filter LoginScreen.isSignIn
      (LoginScreen.calls
         (fold_left LoginScreen.step
            [LoginScreen.SignInSettled true; LoginScreen.ClickLogin;
             LoginScreen.ClickLogin]
            (LoginScreen.run {["termsAccepted" := "true"]} [LoginScreen.ClickLogin])))
    = List.filter LoginScreen.isSignIn
        (LoginScreen.calls
           (LoginScreen.run {["termsAccepted" := "true"]} [LoginScreen.ClickLogin])).
Proof.
  assert (LoginScreen.inFlight
            (LoginScreen.run {["termsAccepted" := "true"]} [LoginScreen.ClickLogin])
          = 1%nat) as Hfl by (vm_compute; reflexivity).
  split; [exact Hfl|].
  exact (proj2 (LoginScreen_resolved_for_good {["termsAccepted" := "true"]}
                  [LoginScreen.ClickLogin]
                  [LoginScreen.ClickLogin; LoginScreen.ClickLogin] Hfl)).
Defined.

(** ** The Dashboard on screen *)

Lemma WeekDay_range (t : Z) : 0 <= WeekDay t <= 6.
Proof. unfold WeekDay. pose proof (Z.mod_pos_bound (Day t + 4) 7). lia. Qed.

Lemma fetchAgendamentos_filtersInRange (remote : Remote) (token : option string)
    (w : World) :
  filtersInRange w → filtersInRange (fetchAgendamentos remote token w).2.
Proof.
  intros (Hdia & Hst & Harr). destruct w as [σ d cs]. unfold filtersInRange in *.
  cbn [store dashboard] in *. unfold fetchAgendamentos.
  destruct (truthyToken token); cbn [negb]; [|done]. run_handler.
  repeat (match goal with
          | |- context [match ?x with _ => _ end] =>
              match x with
              | respond _ _ _ => destruct x
              | res_json _ => destruct x
              | res_ok _ => destruct x
              | signOutResolves _ => destruct x
              | (_ =? _) => destruct x
              end
          end; run_handler); try done.
  split; [done|]. split; [done|]. rewrite lookup_insert_eq. by eexists.
Qed.

Lemma handleAgendamentoSubmit_filtersInRange (remote : Remote)
    (token : option string) (dataToSend : Form.entries) (w : World) :
  filtersInRange w →
  filtersInRange (handleAgendamentoSubmit remote token dataToSend w).2.
Proof.
  intros Hw. unfold handleAgendamentoSubmit.
  destruct (truthyToken token); cbn [negb]; [|done].
  destruct (missingField dataToSend).
  { destruct w. by run_handler. }
  unfold tryCatch at 1, detached.
  unfold fetch at 1, json at 1, currentTarget_reset, showToast, emit, throw,
    mbind, mret, M_bind, M_ret.
  destruct w as [σ d cs]. cbn [store dashboard calls].
  destruct (respond remote "POST" (API_BASE_URL ++ "/agendar")%string) as [res|];
    [|done].
  destruct (res_json res) as [body|]; [|done].
  destruct (res_ok res); [|done].
  destruct (currentTargetAlive remote); [|done].
  cbn [store dashboard calls].
  match goal with
  | |- context [fetchAgendamentos remote token ?w0] =>
      pose proof (fetchAgendamentos_filtersInRange remote token w0 Hw) as Hf;
      destruct (fetchAgendamentos remote token w0) as [c w1]
  end.
  exact Hf.
Qed.

Lemma filterEffect_filtersInRange (tza : Z) (Date_parse : string → Date) (now : Z)
    (w : World) :
  filtersInRange w → filtersInRange (filterEffect tza Date_parse now w).2.
Proof.
  intros (Hdia & Hst & [L HL]).
  rewrite (filterEffect_run tza Date_parse now w L HL).
  unfold filtersInRange. cbn [snd store dashboard agendamentos diaSelecionado
                                statusFilter].
  split; [done|]. split; [done|].
  pose proof (fresh_lookup _ _ _ HL) as Hne.
  rewrite !lookup_insert_ne by done. by exists L.
Qed.

Lemma DashboardUI_step_filtersInRange (tza : Z) (Date_parse : string → Date)
    (remote : Remote) (token : option string) (w : World)
    (ev : DashboardUI.Event) :
  filtersInRange w →
  filtersInRange (DashboardUI.step tza Date_parse remote token w ev).
Proof.
  intros Hw. destruct ev as [i|v|i| |f|now]; cbn [DashboardUI.step];
    unfold DashboardUI.setDiaSelecionado, DashboardUI.setSearchInput,
      DashboardUI.setStatusFilter, getDashboard, setDashboard, mbind, M_bind.
  - destruct (DashboardUI.dias !! i) eqn:Hi; [|done].
    apply lookup_lt_Some in Hi. cbn [length DashboardUI.dias] in Hi.
    destruct Hw as (_ & Hst & Harr). destruct w. unfold filtersInRange.
    cbn [snd store dashboard diaSelecionado statusFilter agendamentos] in *.
    split; [lia|]. by split.
  - destruct Hw as (? & ? & ?). by destruct w.
  - destruct (DashboardUI.statusOptions !! i) as [v|] eqn:Hi; [|done].
    apply list_elem_of_lookup_2, list_elem_of_In in Hi.
    destruct Hw as (? & _ & ?). by destruct w.
  - by apply fetchAgendamentos_filtersInRange.
  - by apply handleAgendamentoSubmit_filtersInRange.
  - by apply filterEffect_filtersInRange.
Qed.

(** X21. In every state the Dashboard can reach (tab clicks, typing, status
    choices, refreshes, submissions, passes of the effect, in any order),
    the day selector is a day of the week, 0 to 6, and the status filter is
    one of the four values the select offers: the branch of the date filter
    for -1 and the one for other values are never taken. *)
Theorem Dashboard_selector_in_range (tza : Z) (Date_parse : string → Date)
    (remote : Remote) (token : option string) (now : Z)
    (evs : list DashboardUI.Event) :
  let d := dashboard (DashboardUI.run tza Date_parse remote token now evs) in
  0 <= diaSelecionado d <= 6
  ∧ In (statusFilter d) DashboardUI.statusOptions.
Proof.
  cbv zeta.
  cut (filtersInRange (DashboardUI.run tza Date_parse remote token now evs));
    [by intros (? & ? & _)|].
  unfold DashboardUI.run. apply fold_left_invariant.
  - unfold filtersInRange. cbn. pose proof (WeekDay_range (LocalTime tza now)).
    repeat split; [lia..|by left|by eexists].
  - intros w ev. apply DashboardUI_step_filtersInRange.
Qed.

(** X22. Whatever led to it, a pass of the effect on the Dashboard displays
    only records that fall on the selected day of the week and are not
    before 00:00 of the day of the pass: an appointment of a past day is
    never on screen. *)
Theorem Dashboard_displays_no_past (tza : Z) (Date_parse : string → Date)
    (remote : Remote) (token : option string) (now0 now : Z)
    (evs : list DashboardUI.Event) (out : list Agendamento) (a : Agendamento) :
  let w := DashboardUI.run tza Date_parse remote token now0
             (evs ++ [DashboardUI.Effect now]) in
  store w !! filteredAgendamentos (dashboard w) = Some out →
  In a out →
  ∃ t, dataAgendamento Date_parse a = Some t
       ∧ WeekDay (LocalTime tza t) = diaSelecionado (dashboard w)
       ∧ startOfDay tza now <= t.
Proof.
  cbv zeta. unfold DashboardUI.run. rewrite fold_left_app.
  cbn [fold_left DashboardUI.step].
  set (w0 := fold_left (DashboardUI.step tza Date_parse remote token) evs
               (DashboardUI.mount tza now0)).
  assert (filtersInRange w0) as (Hdia & _ & [L HL]).
  { unfold w0. apply fold_left_invariant.
    - unfold filtersInRange. cbn. pose proof (WeekDay_range (LocalTime tza now0)).
      repeat split; [lia..|by left|by eexists].
    - intros w ev. apply DashboardUI_step_filtersInRange. }
  rewrite (filterEffect_run tza Date_parse now w0 L HL).
  cbn [snd store dashboard filteredAgendamentos diaSelecionado].
  rewrite lookup_insert_eq. intros [= <-] [_ Ha]%sort_In%filter_In.
  apply filterCallback_true in Ha as (_ & _ & Hd).
  by apply (matchesDate_weekday tza Date_parse now).
Qed.

Lemma Dashboard_displays_no_past_witness :
  let w := DashboardUI.run brasilia (parseISO brasilia)
             (apiAnswering
                (Some (mkResponse 200
                         (Some (mkBody (Some [domingoPassado; domingoFuturo]) None)))))
             (Some "jwt") quartaMeioDia
             ([DashboardUI.Refresh; DashboardUI.ClickDia 0]
              ++ [DashboardUI.Effect quartaMeioDia]) in
  store w !! filteredAgendamentos (dashboard w) = Some [domingoFuturo]
  ∧ ∃ t, dataAgendamento (parseISO brasilia) domingoFuturo = Some t
         ∧ WeekDay (LocalTime brasilia t) = diaSelecionado (dashboard w)
         ∧ startOfDay brasilia quartaMeioDia <= t.
Proof.
  cbv zeta.
  assert (store (DashboardUI.run brasilia (parseISO brasilia)
             (apiAnswering
                (Some (mkResponse 200
                         (Some (mkBody (Some [domingoPassado; domingoFuturo]) None)))))
             (Some "jwt") quartaMeioDia
             ([DashboardUI.Refresh; DashboardUI.ClickDia 0]
              ++ [DashboardUI.Effect quartaMeioDia]))
          !! filteredAgendamentos (dashboard (DashboardUI.run brasilia (parseISO brasilia)
             (apiAnswering
                (Some (mkResponse 200
                         (Some (mkBody (Some [domingoPassado; domingoFuturo]) None)))))
             (Some "jwt") quartaMeioDia
             ([DashboardUI.Refresh; DashboardUI.ClickDia 0]
              ++ [DashboardUI.Effect quartaMeioDia])))
          = Some [domingoFuturo]) as Hout by (vm_compute; reflexivity).
  split; [exact Hout|].
  exact (Dashboard_displays_no_past brasilia (parseISO brasilia)
           (apiAnswering
              (Some (mkResponse 200
                       (Some (mkBody (Some [domingoPassado; domingoFuturo]) None)))))
           (Some "jwt") quartaMeioDia quartaMeioDia
           [DashboardUI.Refresh; DashboardUI.ClickDia 0]
           [domingoFuturo] domingoFuturo Hout (or_introl eq_refl)).
Defined.

(** ** [handleStatusChange] *)

(** Unfolds the monad of the card down to worlds. *)
Ltac run_card :=
  unfold SE.tryFinally, SE.tryCatch, SE.throw, StatusChange.lift,
    StatusChange.setIsSubmitting, StatusChange.getUser,
    mbind, mret, StatusChange.C_bind, StatusChange.C_ret, SE.bind, SE.ret;
  cbn [StatusChange.page StatusChange.isSubmitting fst snd];
  run_handler.

Example handleStatusChange_url :
  StatusChange.url usuariaAna (StatusChange.endpointOf AgendamentoCard.cancelado) bea
  = "https://agendamento-ynxr.onrender.com/agendamentos/ana@example.com/cancelar/2".
Proof. vm_compute. reflexivity. Qed.

(** X23. With a token, the status handler of a card always returns normally
    and leaves [isSubmitting] off, whatever the identity provider, the API
    and the refresh do. *)
Theorem handleStatusChange_settles (remote : Remote)
    (currentUser : option (option Supabase.User)) (onUpdate : M unit)
    (token : option string) (agendamento : Agendamento)
    (newStatus : AgendamentoCard.NewStatus) (cw : StatusChange.CardWorld) :
  truthyToken token = true →
  ∃ w', StatusChange.handleStatusChange remote currentUser onUpdate token
          agendamento newStatus cw
        = (Normal (), StatusChange.mkCardWorld false w').
Proof.
  intros Htok. destruct cw as [b [σ d cs]].
  unfold StatusChange.handleStatusChange. rewrite Htok. cbn [negb]. run_card.
  destruct currentUser as [[user|]|]; run_card; try by eexists.
  destruct (respond remote "POST" _) as [res|]; run_card; [|by eexists].
  destruct (res_ok res); run_card.
  - destruct (onUpdate _) as [c w1]. by eexists.
  - destruct (res_json res) as [body|]; run_card; by eexists.
Qed.

Lemma handleStatusChange_settles_witness :
  truthyToken (Some "jwt") = true
  ∧ ∃ w', StatusChange.handleStatusChange (api401 true) (Some (Some usuariaAna))
            (fetchAgendamentos (api401 true) (Some "jwt")) (Some "jwt") bea
            AgendamentoCard.cancelado
            (StatusChange.mkCardWorld false (mundo [bea] 3))
          = (Normal (), StatusChange.mkCardWorld false w').
Proof.
  split; [vm_compute; reflexivity|].
  apply (handleStatusChange_settles (api401 true) (Some (Some usuariaAna))
           (fetchAgendamentos (api401 true) (Some "jwt")) (Some "jwt") bea
           AgendamentoCard.cancelado
           (StatusChange.mkCardWorld false (mundo [bea] 3))).
  vm_compute; reflexivity.
Defined.

(** X24. When the API refuses the transition (an answer that is not 2xx,
    401 included, with a body that decodes), the card shows the body's [msg]
    as an error, or "Erro ao confirmar" / "Erro ao cancelar" when there is
    none or it is empty; it neither signs the user out nor refreshes the
    list, and the page's state is as it was. *)
Theorem handleStatusChange_refused (remote : Remote) (user : Supabase.User)
    (onUpdate : M unit) (token : option string) (agendamento : Agendamento)
    (newStatus : AgendamentoCard.NewStatus) (cw : StatusChange.CardWorld)
    (res : Response) (body : Body) :
  truthyToken token = true →
  respond remote "POST"
    (StatusChange.url user (StatusChange.endpointOf newStatus) agendamento)
  = Some res →
  res_ok res = false →
  res_json res = Some body →
  ∃ w' msg,
    StatusChange.handleStatusChange remote (Some (Some user)) onUpdate token
      agendamento newStatus cw
    = (Normal (), StatusChange.mkCardWorld false w')
    ∧ newCalls (StatusChange.page cw) w'
      = [CFetch "POST"
           (StatusChange.url user (StatusChange.endpointOf newStatus) agendamento)
           (default "" token) None;
         CToast msg error]
    ∧ (∀ m, body_msg body = Some m → m ≠ "" → msg = m)
    ∧ (body_msg body = None ∨ body_msg body = Some "" →
       msg = ("Erro ao " ++ StatusChange.endpointOf newStatus)%string)
    ∧ store w' = store (StatusChange.page cw)
    ∧ dashboard w' = dashboard (StatusChange.page cw).
Proof.
  intros Htok Hres Hok Hjson. destruct cw as [b [σ d cs]].
  unfold StatusChange.handleStatusChange. rewrite Htok. cbn [negb]. run_card.
  rewrite Hres. run_card. rewrite Hok. run_card. rewrite Hjson. run_card.
  eexists _, _. split; [reflexivity|]. run_card.
  rewrite <- !app_assoc, newCalls_app. split; [reflexivity|].
  split; [|split; [|done]].
  - intros m -> Hm. unfold truthy. by destruct (String.eqb_spec m "").
  - by intros [-> | ->].
Qed.

Lemma handleStatusChange_refused_witness :
  truthyToken (Some "jwt") = true
  ∧ res_ok (mkResponse 401 (Some (mkBody None None))) = false
  ∧ ∃ w',
      StatusChange.handleStatusChange
        (apiAnswering (Some (mkResponse 401 (Some (mkBody None None)))))
        (Some (Some usuariaAna))
        (fetchAgendamentos
           (apiAnswering (Some (mkResponse 401 (Some (mkBody None None)))))
           (Some "jwt"))
        (Some "jwt") bea AgendamentoCard.confirmado
        (StatusChange.mkCardWorld false (mundo [bea] 3))
      = (Normal (), StatusChange.mkCardWorld false w')
      ∧ newCalls (mundo [bea] 3) w'
        = [CFetch "POST"
             (StatusChange.url usuariaAna "confirmar" bea) "jwt" None;
           CToast "Erro ao confirmar" error].
Proof.
  split; [vm_compute; reflexivity|]. split; [vm_compute; reflexivity|].
  destruct (handleStatusChange_refused
              (apiAnswering (Some (mkResponse 401 (Some (mkBody None None)))))
              usuariaAna
              (fetchAgendamentos
                 (apiAnswering (Some (mkResponse 401 (Some (mkBody None None)))))
                 (Some "jwt"))
              (Some "jwt") bea AgendamentoCard.confirmado
              (StatusChange.mkCardWorld false (mundo [bea] 3))
              (mkResponse 401 (Some (mkBody None None))) (mkBody None None)
              eq_refl eq_refl eq_refl eq_refl)
    as (w' & msg & Hrun & Hcalls & _ & Hmsg & _).
  exists w'. split; [exact Hrun|].
  cbn [StatusChange.page] in Hcalls.
  rewrite Hcalls, (Hmsg (or_introl eq_refl)). reflexivity.
Defined.



(** X26. When the identity provider has no user to give, or fails, the card
    sends no request at all: it shows "Erro ao confirmar" / "Erro ao
    cancelar" and nothing else. *)
Theorem handleStatusChange_no_user (remote : Remote)
    (currentUser : option (option Supabase.User)) (onUpdate : M unit)
    (token : option string) (agendamento : Agendamento)
    (newStatus : AgendamentoCard.NewStatus) (cw : StatusChange.CardWorld) :
  truthyToken token = true →
  currentUser = None ∨ currentUser = Some None →
  ∃ w', StatusChange.handleStatusChange remote currentUser onUpdate token
          agendamento newStatus cw
        = (Normal (), StatusChange.mkCardWorld false w')
        ∧ newCalls (StatusChange.page cw) w'
          = [CToast ("Erro ao " ++ StatusChange.endpointOf newStatus)%string error]
        ∧ store w' = store (StatusChange.page cw)
        ∧ dashboard w' = dashboard (StatusChange.page cw).
Proof.
  intros Htok Huser. destruct cw as [b [σ d cs]].
  unfold StatusChange.handleStatusChange. rewrite Htok. cbn [negb].
  destruct Huser as [-> | ->]; run_card;
    (eexists; split; [reflexivity|]); cbn [StatusChange.page];
    by rewrite newCalls_app.
Qed.

Lemma handleStatusChange_no_user_witness :
  truthyToken (Some "jwt") = true
  ∧ ∃ w', StatusChange.handleStatusChange (api401 true) (Some None)
            (fetchAgendamentos (api401 true) (Some "jwt")) (Some "jwt") bea
            AgendamentoCard.confirmado
            (StatusChange.mkCardWorld false (mundo [bea] 3))
          = (Normal (), StatusChange.mkCardWorld false w')
          ∧ newCalls (mundo [bea] 3) w' = [CToast "Erro ao confirmar" error]
          ∧ store w' = store (mundo [bea] 3)
          ∧ dashboard w' = dashboard (mundo [bea] 3).
Proof.
  split; [vm_compute; reflexivity|].
  exact (handleStatusChange_no_user (api401 true) (Some None)
           (fetchAgendamentos (api401 true) (Some "jwt")) (Some "jwt") bea
           AgendamentoCard.confirmado
           (StatusChange.mkCardWorld false (mundo [bea] 3)) eq_refl
           (or_intror eq_refl)).
Defined.

(** ** [debounce] *)
Section DebounceFacts.

Context {Args : Type}.
Variable wait : Z.

Lemma clearTimeout_one (tm : Debounce.Timer (Args:=Args)) :
  Debounce.clearTimeout (Some (Debounce.handle tm)) [tm] = [].
Proof. cbn. by rewrite Nat.eqb_refl. Qed.

Lemma clearTimeout_nil (h : option nat) :
  Debounce.clearTimeout h ([] : list (Debounce.Timer (Args:=Args))) = [].
Proof. by destruct h. Qed.

Lemma step_oneTimer (calls : nat) (st : Debounce.State (Args:=Args)) (ev : Debounce.Event (Args:=Args)) :
  Debounce.oneTimer calls st →
  Debounce.oneTimer (if Debounce.isCall ev then S calls else calls)
    (Debounce.step wait st ev).
Proof.
  intros [Hn Hp]. destruct st as [c p n t inv]. cbn in Hn, Hp.
  destruct ev as [a|dt]; cbn [Debounce.step Debounce.isCall].
  - unfold Debounce.oneTimer, Debounce.executedFunction.
    cbn [Debounce.pending Debounce.timeout Debounce.invoked Debounce.clock
         Debounce.nextHandle].
    destruct Hp as [-> | (tm & -> & ->)].
    + rewrite clearTimeout_nil. cbn in *. split; [lia|]. right. by eexists.
    + rewrite clearTimeout_one. cbn in *. split; [lia|]. right. by eexists.
  - unfold Debounce.oneTimer, Debounce.elapse.
    cbn [Debounce.pending Debounce.clock].
    destruct Hp as [-> | (tm & -> & ->)]; cbn [length Debounce.fire].
    + cbn. split; [lia | by left].
    + cbn [Debounce.earliest Debounce.pending].
      destruct (Debounce.due tm <=? c + Z.max 0 dt).
      * rewrite clearTimeout_one. unfold Debounce.later.
        cbn [Debounce.fire Debounce.pending Debounce.timeout Debounce.invoked
             Debounce.clock Debounce.nextHandle].
        rewrite clearTimeout_nil, length_app. cbn in *. split; [lia | by left].
      * cbn in *. split; [lia|]. right. by eexists.
Qed.

Lemma run_oneTimer (evs : list (Debounce.Event (Args:=Args))) (calls : nat) (st : Debounce.State (Args:=Args)) :
  Debounce.oneTimer calls st →
  Debounce.oneTimer (calls + Debounce.countCalls evs)
    (fold_left (Debounce.step wait) evs st).
Proof.
  revert calls st. induction evs as [|ev evs IH]; intros calls st Hst.
  - unfold Debounce.countCalls. cbn. by rewrite Nat.add_0_r.
  - cbn [fold_left]. apply (step_oneTimer calls st ev) in Hst.
    apply IH in Hst. unfold Debounce.countCalls in *. cbn [List.filter].
    destruct (Debounce.isCall ev); cbn [length] in *;
      [by rewrite Nat.add_succ_r | done].
Qed.

(** The state between two calls of a burst. *)
Lemma burst_pair (st : Debounce.State (Args:=Args)) (a : Args) (gap : Z) :
  0 <= gap < wait →
  Debounce.oneTimer (length (Debounce.invoked st) + 1) st →
  let st' := Debounce.step wait (Debounce.step wait st (Debounce.Call a))
               (Debounce.Elapse gap) in
  Debounce.oneTimer (length (Debounce.invoked st') + 1) st'
  ∧ Debounce.clock st' = Debounce.clock st + gap
  ∧ Debounce.invoked st' = Debounce.invoked st.
Proof.
  intros Hgap [_ Hp]. destruct st as [c p n t inv]. cbn in Hp. cbv zeta.
  cbn [Debounce.step]. unfold Debounce.executedFunction, Debounce.elapse.
  cbn [Debounce.pending Debounce.timeout Debounce.invoked Debounce.clock
       Debounce.nextHandle].
  assert (Debounce.clearTimeout t p = []) as ->.
  { destruct Hp as [-> | (tm & -> & ->)];
      [apply clearTimeout_nil | apply clearTimeout_one]. }
  cbn [app length Debounce.fire Debounce.earliest Debounce.pending Debounce.due].
  rewrite !Z.max_r by lia.
  destruct (Z.leb_spec (c + wait) (c + gap)); [lia|].
  unfold Debounce.oneTimer. cbn. repeat split; try lia. right. by eexists.
Qed.

Lemma burst_quiet (burst : list (Args * Z)) (st : Debounce.State (Args:=Args)) :
  Forall (λ p, 0 <= p.2 < wait) burst →
  Debounce.oneTimer (length (Debounce.invoked st) + 1) st →
  let st' := fold_left (Debounce.step wait) (Debounce.burstEvents burst) st in
  Debounce.oneTimer (length (Debounce.invoked st') + 1) st'
  ∧ Debounce.clock st' = Debounce.clock st + Debounce.burstLength burst
  ∧ Debounce.invoked st' = Debounce.invoked st.
Proof.
  revert st. induction burst as [|[a gap] burst IH]; intros st Hgaps Hst.
  - cbn [Debounce.burstEvents flat_map fold_left Debounce.burstLength fold_right].
    split; [exact Hst|]. split; [lia | done].
  - apply Forall_cons_1 in Hgaps as [Hgap Hgaps]. cbn [fst snd] in Hgap.
    cbn [Debounce.burstEvents flat_map app fold_left fst snd].
    destruct (burst_pair st a gap Hgap Hst) as (Hst1 & Hc1 & Hi1).
    cbv zeta in Hst1, Hc1, Hi1.
    destruct (IH _ Hgaps Hst1) as (Hst2 & Hc2 & Hi2).
    cbv zeta in Hst2, Hc2, Hi2. fold (Debounce.burstEvents burst).
    split; [exact Hst2|]. split; [|congruence].
    rewrite Hc2, Hc1. cbn [Debounce.burstLength fold_right snd].
    fold (Debounce.burstLength burst). lia.
Qed.

End DebounceFacts.

(** X27. A debounced function keeps at most one timeout pending, the one
    its variable [timeout] names; and [func] has run, counting the run still
    pending, at most as often as the debounced function was called. *)
Theorem debounce_one_timer {Args : Type} (wait : Z)
    (evs : list (Debounce.Event (Args:=Args))) :
  let st := Debounce.run wait evs in
  (length (Debounce.pending st) <= 1)%nat
  ∧ (length (Debounce.invoked st) + length (Debounce.pending st)
     <= Debounce.countCalls evs)%nat
  ∧ ∀ tm, In tm (Debounce.pending st) →
          Debounce.timeout st = Some (Debounce.handle tm).
Proof.
  cbv zeta. unfold Debounce.run.
  assert (Debounce.oneTimer 0 (Debounce.init (Args:=Args))) as Hinit.
  { unfold Debounce.oneTimer. cbn. split; [lia | by left]. }
  apply (run_oneTimer wait evs) in Hinit. cbn [Nat.add] in Hinit.
  destruct Hinit as [Hn [Hp | (tm & Hp & Ht)]]; rewrite Hp in *; cbn in *.
  - repeat split; [lia | lia | done].
  - repeat split; [lia | lia |]. by intros tm' [<- | []].
Qed.

Lemma debounce_one_timer_witness :
  In (Debounce.mkTimer 1 350 "an")
    (Debounce.pending
       (Debounce.run 300
          [Debounce.Call "a"; Debounce.Elapse 50; Debounce.Call "an"]))
  ∧ Debounce.timeout
      (Debounce.run 300 [Debounce.Call "a"; Debounce.Elapse 50; Debounce.Call "an"])
    = Some 1%nat.
Proof.
  assert (In (Debounce.mkTimer 1 350 "an")
            (Debounce.pending
               (Debounce.run 300
                  [Debounce.Call "a"; Debounce.Elapse 50; Debounce.Call "an"])))
    as Hin by (vm_compute; auto).
  split; [exact Hin|].
  exact (proj2 (proj2 (debounce_one_timer 300
                         [Debounce.Call "a"; Debounce.Elapse 50; Debounce.Call "an"]))
           (Debounce.mkTimer 1 350 "an") Hin).
Defined.

(** X28. Of calls that follow one another by less than [wait], only the
    last one reaches [func]: once, with its own arguments, [wait]
    milliseconds after it was made. *)
Theorem debounce_burst {Args : Type} (wait : Z) (burst : list (Args * Z))
    (a : Args) (rest : Z) :
  0 <= wait →
  Forall (λ p, 0 <= p.2 < wait) burst →
  wait <= rest →
  let st := Debounce.run wait
              (Debounce.burstEvents burst
               ++ [Debounce.Call a; Debounce.Elapse rest]) in
  Debounce.invoked st = [(Debounce.burstLength burst + wait, a)]
  ∧ Debounce.pending st = [].
Proof.
  intros Hwait Hgaps Hrest. cbv zeta. unfold Debounce.run.
  rewrite fold_left_app.
  assert (Debounce.oneTimer (Args:=Args)
            (length (Debounce.invoked (Debounce.init (Args:=Args))) + 1)
            Debounce.init) as Hinit.
  { unfold Debounce.oneTimer. cbn. split; [lia | by left]. }
  destruct (burst_quiet wait burst Debounce.init Hgaps Hinit) as ([_ Hp] & Hc & Hi).
  cbv zeta in Hp, Hc, Hi.
  destruct (fold_left (Debounce.step wait) (Debounce.burstEvents burst) Debounce.init)
    as [c p n t inv].
  cbn in Hp, Hc, Hi. rewrite ?Z.add_0_l in Hc. subst c inv.
  cbn [fold_left Debounce.step]. unfold Debounce.executedFunction, Debounce.elapse.
  cbn [Debounce.pending Debounce.timeout Debounce.invoked Debounce.clock
       Debounce.nextHandle].
  assert (Debounce.clearTimeout t p = []) as ->.
  { destruct Hp as [-> | (tm & -> & ->)];
      [apply clearTimeout_nil | apply clearTimeout_one]. }
  cbn [app length Debounce.fire Debounce.earliest Debounce.pending Debounce.due
       Debounce.handle].
  rewrite !Z.max_r by lia.
  destruct (Z.leb_spec (Debounce.burstLength burst + wait)
              (Debounce.burstLength burst + rest)); [|lia].
  cbn [Debounce.clearTimeout List.filter]. rewrite Nat.eqb_refl.
  unfold Debounce.later.
  cbn [negb Debounce.fire Debounce.pending Debounce.timeout Debounce.invoked
       Debounce.clock Debounce.nextHandle Debounce.args Debounce.clearTimeout
       List.filter app].
  split; [|done]. rewrite Z.max_r by lia. done.
Qed.

Lemma debounce_burst_witness :
  0 <= 300
  ∧ Forall (λ p : string * Z, 0 <= p.2 < 300) [("a", 100); ("an", 250)]
  ∧ 300 <= 1000
  ∧ Debounce.invoked
      (Debounce.run 300
         (Debounce.burstEvents [("a", 100); ("an", 250)]
          ++ [Debounce.Call "ana"; Debounce.Elapse 1000]))
    = [(650, "ana")].
Proof.
  assert (0 <= 300) as Hw by lia.
  assert (Forall (λ p : string * Z, 0 <= p.2 < 300) [("a", 100); ("an", 250)]) as Hb
    by (repeat constructor; cbn; lia).
  assert (300 <= 1000) as Hr by lia.
  split; [exact Hw|]. split; [exact Hb|]. split; [exact Hr|].
  exact (proj1 (debounce_burst 300 [("a", 100); ("an", 250)] "ana" 1000 Hw Hb Hr)).
Defined.

(** ** The buttons of a card while a call is in flight *)

(** X29. While a confirm or cancel call of a card is in flight, a click on
    either of its buttons changes nothing and starts no second call; at most
    one call is ever in flight. *)
Theorem AgendamentoCard_click_ignored (token : option string)
    (evs : list AgendamentoCard.Event) (newStatus : AgendamentoCard.NewStatus) :
  let st := AgendamentoCard.run token evs in
  AgendamentoCard.inFlight st ≠ [] →
  AgendamentoCard.step token st (AgendamentoCard.Click newStatus) = st
  ∧ length (AgendamentoCard.inFlight st) = 1%nat.
Proof.
  cbv zeta. intros Hfl.
  destruct (AgendamentoCard_single_flight token evs) as [[Hnil _] | [Hone Hdis]];
    [done|].
  cbv zeta in Hone, Hdis. split; [|done].
  cbn [AgendamentoCard.step]. by rewrite Hdis.
Qed.

Lemma AgendamentoCard_click_ignored_witness :
  AgendamentoCard.inFlight
    (AgendamentoCard.run (Some "jwt")
       [AgendamentoCard.Click AgendamentoCard.confirmado]) ≠ []
  ∧ AgendamentoCard.inFlight
      (AgendamentoCard.run (Some "jwt")
         [AgendamentoCard.Click AgendamentoCard.confirmado;
          AgendamentoCard.Click AgendamentoCard.cancelado])
    = [AgendamentoCard.confirmado].
Proof.
  assert (AgendamentoCard.inFlight
            (AgendamentoCard.run (Some "jwt")
               [AgendamentoCard.Click AgendamentoCard.confirmado]) ≠ []) as Hfl
    by (vm_compute; discriminate).
  split; [exact Hfl|].
  change (AgendamentoCard.run (Some "jwt")
            [AgendamentoCard.Click AgendamentoCard.confirmado;
             AgendamentoCard.Click AgendamentoCard.cancelado])
    with (AgendamentoCard.step (Some "jwt")
            (AgendamentoCard.run (Some "jwt")
               [AgendamentoCard.Click AgendamentoCard.confirmado])
            (AgendamentoCard.Click AgendamentoCard.cancelado)).
  rewrite (proj1 (AgendamentoCard_click_ignored (Some "jwt")
                    [AgendamentoCard.Click AgendamentoCard.confirmado]
                    AgendamentoCard.cancelado Hfl)).
  vm_compute. reflexivity.
Defined.
